(** * Hospital appointment application (src/app.py)

    A shallow embedding of the Flask application: the three SQLAlchemy
    models as records, the database as three tables kept in insertion
    order, the upload directory as a finite map from path to file
    contents, and every view function as a pure function from the
    server state and the request to an outcome (response, flashed
    messages, new server state, new session).

    Conventions of the embedding:
    - Role, status and action values are strings, as in the source.
    - Keys and [patient_id] hold [Z]; sqlite keeps them in 64 bits, and
      a query for a key outside that range raises OverflowError.
    - Every form field is text.  [book_appointment] binds the text of
      [doctor_id] to an [Integer] column, where sqlite's column
      affinity decides what is stored: a decimal integer that fits 64
      bits is stored as that integer, one that does not fit as a real,
      and what sqlite makes of any other text is a parameter of the
      development ([numeric_affinity]).
    - A primary key is assigned on insertion as one more than the
      largest key of the table.
    - werkzeug's [generate_password_hash] draws a random salt; the
      request carries the salt drawn while it is served.  The two
      password functions are parameters of the development.
    - The upload folder has no subdirectories, and the process runs in
      the application directory.  [file.save] fails for a file name
      with a slash (it names a directory that is not there); which
      other names the operating system refuses is a parameter
      ([os_accepts]). *)

From Stdlib Require Import ZArith Ascii.
From stdpp Require Import base option list gmap strings pretty fin_maps.

Local Open Scope string_scope.
Local Open Scope Z_scope.
Local Open Scope list_scope.

(** ** Column values *)

(** What sqlite can hold in a column declared [Integer]: an integer, a
    real (kept here as the literal it was converted from) or the text
    itself. *)
Inductive SqlValue :=
  | Integer (z : Z)
  | Real (literal : string)
  | Text (s : string).

#[global] Instance SqlValue_eq_dec : EqDecision SqlValue.
Proof. solve_decision. Defined.

(** The range of a sqlite integer. *)
Definition sqlite_int (z : Z) : bool :=
  bool_decide (- 2 ^ 63 ≤ z ≤ 2 ^ 63 - 1).

Definition digit_value (c : Ascii.ascii) : option Z :=
  let n := Z.of_N (Ascii.N_of_ascii c) in
  if bool_decide (48 ≤ n ≤ 57) then Some (n - 48) else None.

Fixpoint digits_value (acc : Z) (s : string) : option Z :=
  match s with
  | EmptyString => Some acc
  | String c s' =>
      match digit_value c with
      | Some d => digits_value (10 * acc + d) s'
      | None => None
      end
  end.

(** A decimal integer: digits, with an optional minus sign in front. *)
Definition decimal_integer (s : string) : option Z :=
  match s with
  | EmptyString => None
  | String "-"%char EmptyString => None
  | String "-"%char s' => Z.opp <$> digits_value 0 s'
  | _ => digits_value 0 s
  end.

(** ** Models *)

Module User.
Record t := mk {
  id : Z;
  username : string;
  password : string;
  role : string  (* patient, doctor, admin *)
}.
#[global] Instance eq_dec : EqDecision t.
Proof. solve_decision. Defined.
End User.

Module Appointment.
Record t := mk {
  id : Z;
  patient_id : Z;
  doctor_id : SqlValue;
  time : string;
  status : string
}.
#[global] Instance eq_dec : EqDecision t.
Proof. solve_decision. Defined.

(** [appointment.status = s] *)
Definition set_status (s : string) (a : t) : t :=
  mk (id a) (patient_id a) (doctor_id a) (time a) s.
End Appointment.

Module Prescription.
Record t := mk {
  id : Z;
  appointment_id : Z;
  file_url : string
}.
#[global] Instance eq_dec : EqDecision t.
Proof. solve_decision. Defined.
End Prescription.

(** ** The database and the upload directory *)

Record DB := mkDB {
  users : list User.t;
  appointments : list Appointment.t;
  prescriptions : list Prescription.t
}.

Record State := mkState {
  db : DB;
  uploads : gmap string (list Byte.byte)
}.

Definition empty_db : DB := mkDB [] [] [].

(** [Model.query.get(i)]: the row whose primary key is [i]. *)
Definition query_get {A} (pk : A → Z) (i : Z) (rows : list A) : option A :=
  List.find (λ r, bool_decide (pk r = i)) rows.

(** [Model.query.get_or_404(i)]: the row, or the status of the failure.
    A key that does not fit 64 bits has no row, and asking sqlite for
    it raises OverflowError, which is a 500; any other key without a
    row is a 404. *)
Definition get_or_404 {A} (pk : A → Z) (i : Z) (rows : list A) : A + Z :=
  match query_get pk i rows with
  | Some r => inl r
  | None => inr (if sqlite_int i then 404 else 500)
  end.

(** The key given to a newly inserted row. *)
Definition next_id {A} (pk : A → Z) (rows : list A) : Z :=
  foldr (λ r m, Z.max (pk r) m) 0 rows + 1.

(** In-place change of the row with primary key [i], then commit. *)
Definition update_row {A} (pk : A → Z) (i : Z) (f : A → A) (rows : list A)
  : list A :=
  map (λ r, if bool_decide (pk r = i) then f r else r) rows.

(** [db.session.add(User(...)); db.session.commit()].  The [username]
    column is [unique=True]: the commit fails when the name is taken. *)
Definition add_user (name pw rl : string) (d : DB) : option DB :=
  if bool_decide (Exists (λ u, User.username u = name) (users d))
  then None
  else Some (mkDB (users d ++ [User.mk (next_id User.id (users d)) name pw rl])
                  (appointments d) (prescriptions d)).

(** [db.session.add(Appointment(patient_id, doctor_id, time))]: the
    [status] column takes its default, ['pending']. *)
Definition add_appointment (pid : Z) (did : SqlValue) (tm : string) (d : DB)
  : DB :=
  mkDB (users d)
       (appointments d ++
          [Appointment.mk (next_id Appointment.id (appointments d))
                          pid did tm "pending"])
       (prescriptions d).

Definition add_prescription (aid : Z) (url : string) (d : DB) : DB :=
  mkDB (users d) (appointments d)
       (prescriptions d ++
          [Prescription.mk (next_id Prescription.id (prescriptions d)) aid url]).

Definition set_appointment_status (i : Z) (s : string) (d : DB) : DB :=
  mkDB (users d)
       (update_row Appointment.id i (Appointment.set_status s) (appointments d))
       (prescriptions d).

(** ** Requests and responses *)

Inductive Method := GET | POST.

Record FileStorage := mkFile {
  filename : string;
  stream : list Byte.byte
}.

(** [bool(file)]: a [FileStorage] is truthy when it has a file name. *)
Definition file_truthy (f : FileStorage) : bool :=
  bool_decide (filename f ≠ "").

Record Form := mkForm {
  form_username : option string;
  form_password : option string;
  form_doctor_id : option string;
  form_time : option string
}.

Record Request := mkRequest {
  method : Method;
  session : option Z;              (* the user id kept in the session *)
  form : Form;
  files : gmap string FileStorage;
  salt : string
}.

Inductive CtxVal :=
  | CUsers (l : list User.t)
  | CAppointments (l : list Appointment.t)
  | CPrescriptions (l : list Prescription.t)
  | CAppointment (a : Appointment.t).

Inductive Response :=
  | render_template (template : string) (ctx : list (string * CtxVal))
  | redirect (endpoint : string)
  | abort (code : Z)
  | send_file (content : list Byte.byte).

Record Outcome := mkOutcome {
  response : Response;
  flashed : list (string * string);
  state : State;
  session' : option Z
}.

(** A response that changes neither the server state nor the session. *)
Definition reply (st : State) (req : Request) (r : Response)
    (fl : list (string * string)) : Outcome :=
  mkOutcome r fl st (session req).

Definition UPLOAD_FOLDER : string := "static/uploads".

(** [os.path.join(app.config['UPLOAD_FOLDER'], filename)] for a file
    name that does not start with a slash. *)
Definition upload_path (name : string) : string :=
  UPLOAD_FOLDER +:+ "/" +:+ name.

Fixpoint has_slash (s : string) : bool :=
  match s with
  | EmptyString => false
  | String c s' => bool_decide (c = "/"%char) || has_slash s'
  end.

(** [load_user]: [User.query.get(int(user_id))]. *)
Definition load_user (d : DB) (user_id : Z) : option User.t :=
  query_get User.id user_id (users d).

(** [current_user]: the user of the session, if it still resolves. *)
Definition current_user (st : State) (req : Request) : option User.t :=
  session req ≫= load_user (db st).

(** [@login_required]: an anonymous caller is sent to [login_view]. *)
Definition login_required (view : User.t → State → Request → Outcome)
    (st : State) (req : Request) : Outcome :=
  match current_user st req with
  | None => reply st req (redirect "login")
                  [("Please log in to access this page.", "message")]
  | Some u => view u st req
  end.

Definition access_denied (st : State) (req : Request) : Outcome :=
  reply st req (redirect "index") [("Access denied", "danger")].

(** A missing key of [request.form] or [request.files] is a 400. *)
Definition bad_request (st : State) (req : Request) : Outcome :=
  reply st req (abort 400) [].

(** ** The application *)

Section App.

(** werkzeug.security, with the salt made explicit. *)
Variable generate_password_hash : string → string → string.
Variable check_password_hash : string → string → bool.

(** What sqlite stores when a text that is not a decimal integer is
    bound to an [Integer] column. *)
Variable numeric_affinity : string → SqlValue.

(** Whether the operating system lets a file of this name, which has no
    slash, be created in the upload folder. *)
Variable os_accepts : string → bool.

(** The value stored for a text bound to an [Integer] column. *)
Definition integer_column (s : string) : SqlValue :=
  match decimal_integer s with
  | Some z => if sqlite_int z then Integer z else Real s
  | None => numeric_affinity s
  end.

(** Whether [file.save] can write a file of this name into the upload
    folder. *)
Definition file_savable (name : string) : bool :=
  negb (has_slash name) && os_accepts name.

(** *** Initialise the database and the default admin *)

Definition seed_admin (slt : string) (d : DB) : option DB :=
  match head (filter (λ u, User.role u = "admin") (users d)) with
  | Some _ => Some d
  | None =>
      add_user "admin" (generate_password_hash slt "admin123") "admin" d
  end.

(** *** Routes *)

Definition index (st : State) (req : Request) : Outcome :=
  reply st req (render_template "index.html" []) [].

Definition register (st : State) (req : Request) : Outcome :=
  match method req with
  | POST =>
      match form_username (form req) with
      | None => bad_request st req
      | Some username =>
      match form_password (form req) with
      | None => bad_request st req
      | Some password =>
          let hashed_password := generate_password_hash (salt req) password in
          match add_user username hashed_password "patient" (db st) with
          | None => reply st req (abort 500) []
          | Some d =>
              mkOutcome (redirect "login")
                        [("Patient registered successfully!", "success")]
                        (mkState d (uploads st)) (session req)
          end
      end
      end
  | GET => reply st req (render_template "register_patient.html" []) []
  end.

Definition login (st : State) (req : Request) : Outcome :=
  match method req with
  | POST =>
      match form_username (form req) with
      | None => bad_request st req
      | Some username =>
      match form_password (form req) with
      | None => bad_request st req
      | Some password =>
          let user :=
            head (filter (λ u, User.username u = username) (users (db st))) in
          match user with
          | Some u =>
              if check_password_hash (User.password u) password then
                (* login_user(user) *)
                let logged r := mkOutcome r [] st (Some (User.id u)) in
                if bool_decide (User.role u = "patient")
                then logged (redirect "patient_dashboard")
                else if bool_decide (User.role u = "doctor")
                then logged (redirect "doctor_dashboard")
                else if bool_decide (User.role u = "admin")
                then logged (redirect "admin_dashboard")
                else logged (render_template "login.html" [])
              else
                reply st req (render_template "login.html" [])
                      [("Invalid credentials", "danger")]
          | None =>
              reply st req (render_template "login.html" [])
                    [("Invalid credentials", "danger")]
          end
      end
      end
  | GET => reply st req (render_template "login.html" []) []
  end.

Definition logout : State → Request → Outcome :=
  login_required (λ _ st req, mkOutcome (redirect "index") [] st None).

Definition admin_login (st : State) (req : Request) : Outcome :=
  match method req with
  | POST =>
      match form_username (form req) with
      | None => bad_request st req
      | Some username =>
      match form_password (form req) with
      | None => bad_request st req
      | Some password =>
          let user :=
            head (filter (λ u, User.username u = username ∧ User.role u = "admin")
                         (users (db st))) in
          match user with
          | Some u =>
              if check_password_hash (User.password u) password then
                mkOutcome (redirect "admin_dashboard") [] st (Some (User.id u))
              else
                reply st req (render_template "admin_login.html" [])
                      [("Invalid admin credentials", "danger")]
          | None =>
              reply st req (render_template "admin_login.html" [])
                    [("Invalid admin credentials", "danger")]
          end
      end
      end
  | GET => reply st req (render_template "admin_login.html" []) []
  end.

Definition admin_dashboard : State → Request → Outcome :=
  login_required (λ u st req,
    if bool_decide (User.role u ≠ "admin") then access_denied st req
    else
      let doctors := filter (λ x, User.role x = "doctor") (users (db st)) in
      let patients := filter (λ x, User.role x = "patient") (users (db st)) in
      reply st req
            (render_template "admin_dashboard.html"
               [("doctors", CUsers doctors); ("patients", CUsers patients)])
            []).

Definition add_doctor : State → Request → Outcome :=
  login_required (λ u st req,
    if bool_decide (User.role u ≠ "admin") then access_denied st req
    else
      match form_username (form req) with
      | None => bad_request st req
      | Some username =>
      match form_password (form req) with
      | None => bad_request st req
      | Some pw =>
          let password := generate_password_hash (salt req) pw in
          match add_user username password "doctor" (db st) with
          | None => reply st req (abort 500) []
          | Some d =>
              mkOutcome (redirect "admin_dashboard")
                        [("Doctor added successfully!", "success")]
                        (mkState d (uploads st)) (session req)
          end
      end
      end).

Definition patient_dashboard : State → Request → Outcome :=
  login_required (λ u st req,
    if bool_decide (User.role u ≠ "patient") then access_denied st req
    else
      let doctors := filter (λ x, User.role x = "doctor") (users (db st)) in
      let appts :=
        filter (λ a, Appointment.patient_id a = User.id u)
               (appointments (db st)) in
      reply st req
            (render_template "patient_dashboard.html"
               [("doctors", CUsers doctors); ("appointments", CAppointments appts)])
            []).

Definition book_appointment : State → Request → Outcome :=
  login_required (λ u st req,
    match form_doctor_id (form req) with
    | None => bad_request st req
    | Some doctor_id =>
    match form_time (form req) with
    | None => bad_request st req
    | Some time =>
        mkOutcome (redirect "patient_dashboard")
                  [("Appointment booked!", "success")]
                  (mkState (add_appointment (User.id u)
                                            (integer_column doctor_id) time
                                            (db st))
                           (uploads st))
                  (session req)
    end
    end).

Definition view_history : State → Request → Outcome :=
  login_required (λ u st req,
    if bool_decide (User.role u ≠ "patient") then access_denied st req
    else
      let appts :=
        filter (λ a, Appointment.patient_id a = User.id u)
               (appointments (db st)) in
      let prescs := prescriptions (db st) in
      reply st req
            (render_template "view_history.html"
               [("appointments", CAppointments appts);
                ("prescriptions", CPrescriptions prescs)])
            []).

Definition doctor_dashboard : State → Request → Outcome :=
  login_required (λ u st req,
    if bool_decide (User.role u ≠ "doctor") then access_denied st req
    else
      let appts :=
        filter (λ a, Appointment.doctor_id a = Integer (User.id u))
               (appointments (db st)) in
      reply st req
            (render_template "doctor_dashboard.html"
               [("appointments", CAppointments appts)])
            []).

Definition update_appointment (id : Z) (action : string)
  : State → Request → Outcome :=
  login_required (λ u st req,
    match get_or_404 Appointment.id id (appointments (db st)) with
    | inr code => reply st req (abort code) []
    | inl appointment =>
        if bool_decide (User.role u ≠ "doctor")
           || bool_decide (Appointment.doctor_id appointment
                           ≠ Integer (User.id u))
        then access_denied st req
        else
          let d :=
            if bool_decide (action = "accept") then
              set_appointment_status (Appointment.id appointment) "accepted" (db st)
            else if bool_decide (action = "reject") then
              set_appointment_status (Appointment.id appointment) "rejected" (db st)
            else db st in
          mkOutcome (redirect "doctor_dashboard") []
                    (mkState d (uploads st)) (session req)
    end).

Definition upload_prescription (appointment_id : Z)
  : State → Request → Outcome :=
  login_required (λ u st req,
    match get_or_404 Appointment.id appointment_id (appointments (db st)) with
    | inr code => reply st req (abort code) []
    | inl appointment =>
        if bool_decide (User.role u ≠ "doctor")
           || bool_decide (Appointment.doctor_id appointment
                           ≠ Integer (User.id u))
        then access_denied st req
        else
          let form_page :=
            reply st req
                  (render_template "upload_prescription.html"
                     [("appointment", CAppointment appointment)])
                  [] in
          match method req with
          | POST =>
              match files req !! "file" with
              | None => bad_request st req
              | Some file =>
                  if file_truthy file then
                    let fname := pretty appointment_id +:+ "_" +:+ filename file in
                    let filepath := upload_path fname in
                    if file_savable fname then
                      mkOutcome (redirect "doctor_dashboard")
                                [("Prescription uploaded!", "success")]
                                (mkState
                                   (add_prescription (Appointment.id appointment)
                                                     fname (db st))
                                   (<[filepath := stream file]> (uploads st)))
                                (session req)
                    else reply st req (abort 500) []
                  else form_page
              end
          | GET => form_page
          end
    end).

Definition uploaded_file (name : string) (st : State) (req : Request)
  : Outcome :=
  match uploads st !! upload_path name with
  | Some content => reply st req (send_file content) []
  | None => reply st req (abort 404) []
  end.

(** *** Dispatch *)

Inductive Route :=
  | Index
  | Register
  | Login
  | Logout
  | AdminLogin
  | AdminDashboard
  | AddDoctor
  | PatientDashboard
  | BookAppointment
  | ViewHistory
  | DoctorDashboard
  | UpdateAppointment (id : Z) (action : string)
  | UploadPrescription (appointment_id : Z)
  | UploadedFile (name : string).

(** The [methods=] of each [@app.route]; the default is GET only. *)
Definition allowed (rt : Route) (m : Method) : bool :=
  match rt, m with
  | (Register | Login | AdminLogin | AdminDashboard | UploadPrescription _), _ =>
      true
  | (AddDoctor | BookAppointment), POST => true
  | (AddDoctor | BookAppointment), GET => false
  | _, GET => true
  | _, POST => false
  end.

Definition view (rt : Route) : State → Request → Outcome :=
  match rt with
  | Index => index
  | Register => register
  | Login => login
  | Logout => logout
  | AdminLogin => admin_login
  | AdminDashboard => admin_dashboard
  | AddDoctor => add_doctor
  | PatientDashboard => patient_dashboard
  | BookAppointment => book_appointment
  | ViewHistory => view_history
  | DoctorDashboard => doctor_dashboard
  | UpdateAppointment id action => update_appointment id action
  | UploadPrescription appointment_id => upload_prescription appointment_id
  | UploadedFile name => uploaded_file name
  end.

Definition handle (st : State) (rt : Route) (req : Request) : Outcome :=
  if allowed rt (method req) then view rt st req
  else reply st req (abort 405) [].

(** The server state after a sequence of requests. *)
Definition run (st : State) (trace : list (Route * Request)) : State :=
  foldl (λ s '(rt, req), state (handle s rt req)) st trace.

End App.

(** ** Sample data

    A stand-in for werkzeug's password functions and a small database,
    used to run the views on concrete requests. *)

Definition toy_generate (slt pw : string) : string :=
  pw +:+ "$" +:+ slt.

Definition toy_check (pwhash pw : string) : bool :=
  String.prefix pw pwhash.

(** A stand-in for sqlite's conversion of other texts: kept as text. *)
Definition toy_affinity (s : string) : SqlValue := Text s.

(** A stand-in for the operating system: names of up to 255 bytes. *)
Definition toy_os (name : string) : bool :=
  bool_decide (String.length name ≤ 255)%nat.

Definition admin1 : User.t := User.mk 1 "admin" (toy_generate "s0" "admin123") "admin".
Definition alice : User.t := User.mk 2 "alice" (toy_generate "s1" "wonderland") "patient".
Definition bob : User.t := User.mk 3 "bob" (toy_generate "s2" "builder") "doctor".
Definition carol : User.t := User.mk 4 "carol" (toy_generate "s3" "singer") "doctor".

Definition visit1 (st : string) : Appointment.t :=
  Appointment.mk 1 2 (Integer 3) "2024-01-01 10:00" st.

Definition sample_db (st : string) : DB :=
  mkDB [admin1; alice; bob; carol] [visit1 st] [].

Definition sample_state (st : string) : State :=
  mkState (sample_db st) ∅.

Definition no_form : Form := mkForm None None None None.

(** A GET request without form or files from the session [s]. *)
Definition get_as (s : option Z) : Request :=
  mkRequest GET s no_form ∅ "".

(** A POST request from the session [s]. *)
Definition post_as (s : option Z) (f : Form) (fs : gmap string FileStorage)
  : Request :=
  mkRequest POST s f fs "salt".

Definition report_pdf : FileStorage :=
  mkFile "report.pdf" [Byte.x25; Byte.x50; Byte.x44; Byte.x46].

(** ** Invariants and request helpers *)

(** What the schema declares: primary keys identify a row, and the
    [username] column is [unique=True]. *)
Definition keys_unique (d : DB) : Prop :=
  NoDup (map User.id (users d))
  ∧ NoDup (map Appointment.id (appointments d))
  ∧ NoDup (map Prescription.id (prescriptions d)).

Definition usernames_unique (d : DB) : Prop :=
  NoDup (map User.username (users d)).

(** The references the views fill in themselves: the patient of an
    appointment and the appointment of a prescription. *)
Definition references_resolve (d : DB) : Prop :=
  Forall (λ a, is_Some (query_get User.id (Appointment.patient_id a) (users d)))
         (appointments d)
  ∧ Forall (λ p, is_Some (query_get Appointment.id
                            (Prescription.appointment_id p) (appointments d)))
           (prescriptions d).



(** The role a view compares [current_user.role] with, when it only
    does that ([book_appointment] has no such test; the two appointment
    views also test the owner). *)
Definition required_role (rt : Route) : option string :=
  match rt with
  | AdminDashboard | AddDoctor => Some "admin"
  | PatientDashboard | ViewHistory => Some "patient"
  | DoctorDashboard => Some "doctor"
  | _ => None
  end.

(** Prescription rows and stored files go together. *)
Definition files_match_rows (st : State) : Prop :=
  Forall (λ p, is_Some (uploads st !! upload_path (Prescription.file_url p)))
         (prescriptions (db st))
  ∧ ∀ path, is_Some (uploads st !! path) →
            ∃ p, p ∈ prescriptions (db st)
                 ∧ path = upload_path (Prescription.file_url p).

(** An appointment row without its status. *)
Definition booking (a : Appointment.t) : Z * Z * SqlValue * string :=
  (Appointment.id a, Appointment.patient_id a, Appointment.doctor_id a,
   Appointment.time a).

(** ** Table lemmas *)

Lemma mkState_eta (st : State) : mkState (db st) (uploads st) = st.
Proof. by destruct st. Qed.

Lemma query_get_Some {A} (pk : A → Z) i (rows : list A) r :
  query_get pk i rows = Some r → pk r = i ∧ r ∈ rows.
Proof.
  unfold query_get. intros H. split.
  - apply find_some in H as [_ H]. by apply bool_decide_eq_true in H.
  - apply find_some in H as [H _]. by apply list_elem_of_In.
Qed.

Lemma query_get_None {A} (pk : A → Z) i (rows : list A) :
  query_get pk i rows = None ↔ ∀ r, r ∈ rows → pk r ≠ i.
Proof.
  unfold query_get. split.
  - intros H r Hr Heq. apply list_elem_of_In in Hr.
    pose proof (find_none _ _ H r Hr) as Hn. simpl in Hn.
    by apply bool_decide_eq_false in Hn.
  - intros H. induction rows as [|x rows IH]; [done|]. simpl.
    rewrite bool_decide_eq_false_2 by (apply H; left).
    apply IH. intros r Hr. apply H. by right.
Qed.

Lemma query_get_app {A} (pk : A → Z) i (rows more : list A) :
  query_get pk i (rows ++ more) =
  match query_get pk i rows with
  | Some r => Some r
  | None => query_get pk i more
  end.
Proof.
  unfold query_get. induction rows as [|x rows IH]; [done|]. simpl.
  by destruct (bool_decide (pk x = i)).
Qed.

Lemma query_get_update {A} (pk : A → Z) i j (f : A → A) (rows : list A) :
  (∀ r, pk (f r) = pk r) →
  query_get pk i (update_row pk j f rows) =
  (if bool_decide (i = j) then f else λ r, r) <$> query_get pk i rows.
Proof.
  intros Hpk. unfold query_get, update_row.
  induction rows as [|x rows IH]; [done|]. simpl.
  destruct (bool_decide_reflect (pk x = j)) as [Hj|Hj].
  - rewrite Hpk. destruct (bool_decide_reflect (pk x = i)) as [Hi|Hi].
    + simpl. by rewrite bool_decide_eq_true_2 by congruence.
    + apply IH.
  - destruct (bool_decide_reflect (pk x = i)) as [Hi|Hi].
    + simpl. by rewrite bool_decide_eq_false_2 by congruence.
    + apply IH.
Qed.

Lemma next_id_above {A} (pk : A → Z) (rows : list A) r :
  r ∈ rows → pk r < next_id pk rows.
Proof.
  unfold next_id. induction 1 as [x l|x y l _ IH]; simpl; lia.
Qed.

Lemma next_id_fresh {A} (pk : A → Z) (rows : list A) :
  query_get pk (next_id pk rows) rows = None.
Proof.
  apply query_get_None. intros r Hr.
  pose proof (next_id_above pk rows r Hr). lia.
Qed.

Lemma head_filter_app_new {A} (P : A → Prop) `{∀ x, Decision (P x)}
    (rows : list A) (x : A) :
  Forall (λ r, ¬ P r) rows → P x → head (filter P (rows ++ [x])) = Some x.
Proof.
  intros Hall Hx. rewrite filter_app.
  induction Hall as [|r rows Hr _ IH]; simpl.
  - by rewrite filter_cons_True.
  - by rewrite filter_cons_False.
Qed.

Lemma head_filter_prefix {A} (P : A → Prop) `{∀ x, Decision (P x)}
    (rows more : list A) (x : A) :
  head (filter P rows) = Some x → head (filter P (rows ++ more)) = Some x.
Proof.
  rewrite filter_app. by destruct (filter P rows).
Qed.

Lemma toy_check_generate slt pw : toy_check (toy_generate slt pw) pw = true.
Proof.
  unfold toy_check, toy_generate. induction pw as [|c pw IH]; simpl.
  - done.
  - destruct (Ascii.ascii_dec c c); [apply IH|done].
Qed.

(** ** Properties of the views *)

Ltac owner_guard Hu Ha :=
  unfold update_appointment, upload_prescription, login_required, get_or_404;
  rewrite Hu, Ha.

(** C3: a caller who is logged in but is not the doctor of the appointment
    (another doctor, or any user whose role is not doctor) is answered
    by [update_appointment] and by [upload_prescription] with the
    "Access denied" redirect to the index page, and the server state is
    the one before the request: the appointment keeps its status, no
    prescription row is added and no file is stored. *)
Theorem non_owner_denied os_accepts st req u id action a :
  current_user st req = Some u →
  query_get Appointment.id id (appointments (db st)) = Some a →
  User.role u ≠ "doctor" ∨ Appointment.doctor_id a ≠ Integer (User.id u) →
  let o1 := update_appointment id action st req in
  let o2 := upload_prescription os_accepts id st req in
  (response o1 = redirect "index" ∧ flashed o1 = [("Access denied", "danger")]
   ∧ state o1 = st
   ∧ query_get Appointment.id id (appointments (db (state o1))) = Some a)
  ∧ (response o2 = redirect "index" ∧ flashed o2 = [("Access denied", "danger")]
     ∧ state o2 = st
     ∧ query_get Appointment.id id (appointments (db (state o2))) = Some a
     ∧ prescriptions (db (state o2)) = prescriptions (db st)
     ∧ uploads (state o2) = uploads st).
Proof.
  intros Hu Ha Hno. simpl.
  assert (bool_decide (User.role u ≠ "doctor")
          || bool_decide (Appointment.doctor_id a ≠ Integer (User.id u)) = true) as Hg.
  { apply orb_true_iff. destruct Hno; [left|right]; by apply bool_decide_eq_true. }
  split; owner_guard Hu Ha; rewrite Hg; simpl; by repeat split.
Qed.

(** C8: when the calling doctor is the doctor of the appointment and the
    action is neither "accept" nor "reject", [update_appointment] answers
    with the redirect to the doctor dashboard (no error, nothing
    flashed) and the server state, every row of every table included, is
    the one before the request. *)
Theorem other_action_ignored st req u id action a :
  current_user st req = Some u →
  query_get Appointment.id id (appointments (db st)) = Some a →
  User.role u = "doctor" →
  Appointment.doctor_id a = Integer (User.id u) →
  action ≠ "accept" → action ≠ "reject" →
  update_appointment id action st req =
    mkOutcome (redirect "doctor_dashboard") [] st (session req).
Proof.
  intros Hu Ha Hrole Hown Hacc Hrej. owner_guard Hu Ha.
  rewrite (bool_decide_eq_false_2 (User.role u ≠ "doctor")) by tauto.
  rewrite (bool_decide_eq_false_2 (Appointment.doctor_id a ≠ Integer (User.id u))) by tauto.
  simpl. rewrite !bool_decide_eq_false_2 by done.
  by rewrite mkState_eta.
Qed.



(** C4: for a logged-in patient, [view_history] renders the history page
    with exactly the appointments whose [patient_id] is the caller's id
    and with the whole Prescription table, whichever appointments the
    prescriptions belong to; the state is left as it was. *)
Theorem view_history_lists st req u :
  current_user st req = Some u →
  User.role u = "patient" →
  ∃ appts,
    view_history st req =
      reply st req
            (render_template "view_history.html"
               [("appointments", CAppointments appts);
                ("prescriptions", CPrescriptions (prescriptions (db st)))])
            []
    ∧ (∀ a, a ∈ appts ↔
            a ∈ appointments (db st) ∧ Appointment.patient_id a = User.id u)
    ∧ appts `sublist_of` appointments (db st).
Proof.
  intros Hu Hrole. unfold view_history, login_required. rewrite Hu.
  rewrite bool_decide_eq_false_2 by tauto.
  eexists. split; [reflexivity|]. split.
  - intros a. rewrite list_elem_of_filter. tauto.
  - apply sublist_filter.
Qed.

(** C10, as the code has it: for the doctor of the appointment, a POST
    to [upload_prescription] whose file part is present but empty (no
    file name) stores nothing and shows the upload form again; a POST
    without a file part is answered 400, also without any change; the
    state changes only on a POST that carries a file with a name. *)
Theorem upload_needs_file os_accepts st req u id a :
  current_user st req = Some u →
  query_get Appointment.id id (appointments (db st)) = Some a →
  User.role u = "doctor" →
  Appointment.doctor_id a = Integer (User.id u) →
  let o := upload_prescription os_accepts id st req in
  let form_page :=
    reply st req
          (render_template "upload_prescription.html"
             [("appointment", CAppointment a)]) [] in
  (method req = POST → ∀ f, files req !! "file" = Some f → filename f = "" →
     o = form_page)
  ∧ (method req = POST → files req !! "file" = None →
     o = reply st req (abort 400) [])
  ∧ (state o ≠ st →
     method req = POST ∧ ∃ f, files req !! "file" = Some f ∧ filename f ≠ "").
Proof.
  intros Hu Ha Hrole Hown. simpl. owner_guard Hu Ha.
  rewrite (bool_decide_eq_false_2 (User.role u ≠ "doctor")) by tauto.
  rewrite (bool_decide_eq_false_2
             (Appointment.doctor_id a ≠ Integer (User.id u))) by tauto.
  simpl. split_and!.
  - intros -> f -> Hf. unfold file_truthy.
    by rewrite bool_decide_eq_false_2 by tauto.
  - by intros -> ->.
  - destruct (method req); [done|].
    destruct (files req !! "file") as [f|]; [|done].
    unfold file_truthy. case_bool_decide; [|done].
    destruct (file_savable _ _); [eauto|done].
Qed.

(** C10 as stated fails when the file part is missing: the answer is a
    400, not the upload form. *)
Lemma upload_missing_part_is_400 :
  ¬ (∀ os_accepts st req u id a,
       current_user st req = Some u →
       query_get Appointment.id id (appointments (db st)) = Some a →
       User.role u = "doctor" →
       Appointment.doctor_id a = Integer (User.id u) →
       method req = POST →
       files req !! "file" = None
       ∨ (∃ f, files req !! "file" = Some f ∧ file_truthy f = false) →
       ∃ ctx, response (upload_prescription os_accepts id st req)
              = render_template "upload_prescription.html" ctx).
Proof.
  intros H.
  assert (files (post_as (Some 3) no_form ∅) !! "file" = None) as Hnone
    by apply lookup_empty.
  destruct (H toy_os (sample_state "accepted") (post_as (Some 3) no_form ∅)
              bob 1 (visit1 "accepted")
              eq_refl eq_refl eq_refl eq_refl eq_refl (or_introl Hnone))
    as [ctx Hctx].
  vm_compute in Hctx. discriminate Hctx.
Qed.

(** The scenario of the specification: "report.pdf" uploaded for an
    appointment is stored as "<id>_report.pdf" and can be fetched. *)
Example upload_report_pdf :
  let o := upload_prescription toy_os 1 (sample_state "accepted")
             (post_as (Some 3) no_form {["file" := report_pdf]}) in
  prescriptions (db (state o)) = [Prescription.mk 1 1 "1_report.pdf"]
  ∧ response (uploaded_file "1_report.pdf" (state o) (get_as None))
    = send_file (stream report_pdf).
Proof. by vm_compute. Qed.

(** C1 as stated fails: the doctor of an accepted appointment can still
    reject it (and accept a rejected one); accepted is not terminal. *)
Lemma accepted_is_not_terminal :
  ¬ (∀ st req id action a,
       query_get Appointment.id id (appointments (db st)) = Some a →
       Appointment.status a = "accepted" ∨ Appointment.status a = "rejected" →
       ∃ a', query_get Appointment.id id
               (appointments (db (state (update_appointment id action st req))))
             = Some a'
             ∧ Appointment.status a' = Appointment.status a).
Proof.
  intros H.
  destruct (H (sample_state "accepted") (get_as (Some 3)) 1 "reject"
              (visit1 "accepted") eq_refl (or_introl eq_refl))
    as (a' & Hget & Hst).
  vm_compute in Hget. injection Hget as <-. discriminate Hst.
Qed.

(** *** Insertions and status updates *)

Lemma add_user_Some name pw rl d d' :
  add_user name pw rl d = Some d' →
  Forall (λ u, User.username u ≠ name) (users d)
  ∧ d' = mkDB (users d ++ [User.mk (next_id User.id (users d)) name pw rl])
              (appointments d) (prescriptions d).
Proof.
  unfold add_user. case_bool_decide as Hex; [done|].
  intros [= <-]. split; [|done]. by apply Forall_Exists_neg.
Qed.

Lemma add_user_free name pw rl d :
  Forall (λ u, User.username u ≠ name) (users d) →
  add_user name pw rl d =
    Some (mkDB (users d ++ [User.mk (next_id User.id (users d)) name pw rl])
               (appointments d) (prescriptions d)).
Proof.
  intros Hfree. unfold add_user.
  rewrite bool_decide_eq_false_2; [done|]. by apply Forall_Exists_neg.
Qed.

Lemma head_filter_None {A} (P : A → Prop) `{∀ x, Decision (P x)} (l : list A) :
  head (filter P l) = None → Forall (λ x, ¬ P x) l.
Proof.
  intros Hhd. apply Forall_forall. intros x Hx HP.
  assert (x ∈ filter P l) as Hin by (by apply list_elem_of_filter).
  destruct (filter P l); [by apply not_elem_of_nil in Hin|done].
Qed.

Lemma update_appointment_effect id action st req :
  let o := update_appointment id action st req in
  state o = st
  ∨ ∃ u b s,
      current_user st req = Some u
      ∧ query_get Appointment.id id (appointments (db st)) = Some b
      ∧ User.role u = "doctor"
      ∧ Appointment.doctor_id b = Integer (User.id u)
      ∧ ((action = "accept" ∧ s = "accepted")
         ∨ (action = "reject" ∧ s = "rejected"))
      ∧ state o = mkState (set_appointment_status id s (db st)) (uploads st).
Proof.
  simpl. unfold update_appointment, login_required, get_or_404.
  destruct (current_user st req) as [u|] eqn:Hu; [|by left].
  destruct (query_get _ _ _) as [b|] eqn:Hb; [|by left].
  destruct (query_get_Some _ _ _ _ Hb) as [Hid _].
  destruct (bool_decide_reflect (User.role u ≠ "doctor")) as [|Hrole];
    [by left|].
  destruct (bool_decide_reflect (Appointment.doctor_id b ≠ Integer (User.id u)))
    as [|Hown]; [by left|].
  simpl. apply dec_stable in Hrole. apply dec_stable in Hown.
  repeat case_bool_decide; rewrite ?Hid, ?mkState_eta.
  - right. exists u, b, "accepted". by split_and!; auto.
  - right. exists u, b, "rejected". by split_and!; auto.
  - by left.
Qed.

(** ** Properties that involve the password functions *)

Section Properties.

Variable generate_password_hash : string → string → string.
Variable check_password_hash : string → string → bool.
Variable numeric_affinity : string → SqlValue.
Variable os_accepts : string → bool.

(** C5, as the code has it: for every logged-in caller, a POST to
    /book_appointment whose form has doctor_id = D and time = T is
    answered with the redirect to the patient dashboard and adds
    exactly one row to the Appointment table: its key is new, its
    status is "pending", its patient is the caller, its time is T, and
    its doctor is D whenever D is a decimal integer within the range of
    a database integer.  The rows that were there, the other two tables
    and the stored files are unchanged. *)
Theorem book_appointment_creates st req u D T :
  current_user st req = Some u →
  method req = POST →
  form_doctor_id (form req) = Some D →
  form_time (form req) = Some T →
  let o := handle generate_password_hash check_password_hash
                  numeric_affinity os_accepts st BookAppointment req in
  ∃ a,
    response o = redirect "patient_dashboard"
    ∧ appointments (db (state o)) = appointments (db st) ++ [a]
    ∧ query_get Appointment.id (Appointment.id a) (appointments (db st)) = None
    ∧ Appointment.status a = "pending"
    ∧ Appointment.patient_id a = User.id u
    ∧ (∀ z, decimal_integer D = Some z → sqlite_int z = true →
            Appointment.doctor_id a = Integer z)
    ∧ Appointment.time a = T
    ∧ users (db (state o)) = users (db st)
    ∧ prescriptions (db (state o)) = prescriptions (db st)
    ∧ uploads (state o) = uploads st.
Proof.
  intros Hu Hm HD HT. unfold handle. rewrite Hm. simpl.
  unfold book_appointment, login_required. rewrite Hu, HD, HT. simpl.
  eexists. split_and!; try reflexivity.
  - apply next_id_fresh.
  - intros z Hz Hfit. simpl. unfold integer_column. by rewrite Hz, Hfit.
Qed.

(** *** Users: seeding, registration, login *)

(** C6: the seeding step run on a database whose user table is empty
    leaves exactly one user, named "admin" and with role admin; run on a
    database that already has a user with role admin it changes
    nothing; hence running it again after it has succeeded adds no row
    (whatever salt the second run draws). *)
Theorem seed_admin_idempotent slt slt' d :
  (users d = [] →
     ∃ u, seed_admin generate_password_hash slt d
          = Some (mkDB [u] (appointments d) (prescriptions d))
          ∧ User.username u = "admin" ∧ User.role u = "admin")
  ∧ ((∃ u, u ∈ users d ∧ User.role u = "admin") →
     seed_admin generate_password_hash slt d = Some d)
  ∧ (∀ d', seed_admin generate_password_hash slt d = Some d' →
           seed_admin generate_password_hash slt' d' = Some d').
Proof.
  split_and!.
  - intros Hnil. unfold seed_admin, add_user. rewrite Hnil. simpl.
    eexists. split; [reflexivity|done].
  - intros (u & Hin & Hrole). unfold seed_admin.
    destruct (head (filter (λ x, User.role x = "admin") (users d))) eqn:Hhd;
      [done|].
    apply head_filter_None in Hhd.
    rewrite Forall_forall in Hhd. by destruct (Hhd u Hin).
  - intros d'. unfold seed_admin.
    destruct (head (filter (λ x, User.role x = "admin") (users d))) eqn:Hhd.
    + intros [= <-]. by rewrite Hhd.
    + intros Hadd. apply add_user_Some in Hadd as [_ ->]. simpl.
      apply head_filter_None in Hhd.
      by rewrite head_filter_app_new.
Qed.

Ltac view_cases :=
  unfold handle, view, index, register, login, logout, admin_login,
    admin_dashboard, add_doctor, patient_dashboard, book_appointment,
    view_history, doctor_dashboard, update_appointment, upload_prescription,
    uploaded_file, login_required, get_or_404, access_denied, bad_request,
    reply;
  repeat case_match; simpl.

(** No view removes or changes a user row: the table only grows at its
    end. *)
Lemma handle_users st rt req :
  ∃ more,
    users (db (state (handle generate_password_hash check_password_hash
      numeric_affinity os_accepts
                             st rt req)))
    = users (db st) ++ more.
Proof.
  view_cases;
    try (exists []; by rewrite app_nil_r);
    match goal with
    | H : add_user _ _ _ _ = Some _ |- _ =>
        apply add_user_Some in H as [_ ->]; simpl; eauto
    end.
Qed.

Lemma run_users trace st :
  ∃ more,
    users (db (run generate_password_hash check_password_hash
      numeric_affinity os_accepts st trace))
    = users (db st) ++ more.
Proof.
  revert st. induction trace as [|[rt req] trace IH]; intros st; simpl.
  - exists []. by rewrite app_nil_r.
  - destruct (IH (state (handle generate_password_hash check_password_hash
      numeric_affinity os_accepts
                                st rt req))) as [more2 ->].
    destruct (handle_users st rt req) as [more1 ->].
    exists (more1 ++ more2). by rewrite app_assoc.
Qed.

Hypothesis check_generate :
  ∀ slt pw, check_password_hash (generate_password_hash slt pw) pw = true.

(** C7: registering a user name U that no user row has yet, with any
    password P, adds one user row with name U, role "patient" and the
    hash of P as password (which verifies against P), and answers with
    the redirect to the login page.  From then on, after any further
    requests served, a login with (U, P) succeeds: the session holds the
    id of the new user and the answer is the redirect to the patient
    dashboard. *)
Theorem register_then_login st req U P :
  method req = POST →
  form_username (form req) = Some U →
  form_password (form req) = Some P →
  Forall (λ u, User.username u ≠ U) (users (db st)) →
  let o := register generate_password_hash st req in
  ∃ u,
    response o = redirect "login"
    ∧ users (db (state o)) = users (db st) ++ [u]
    ∧ User.username u = U
    ∧ User.role u = "patient"
    ∧ User.password u = generate_password_hash (salt req) P
    ∧ check_password_hash (User.password u) P = true
    ∧ ∀ trace req',
        method req' = POST →
        form_username (form req') = Some U →
        form_password (form req') = Some P →
        let st' := run generate_password_hash check_password_hash
      numeric_affinity os_accepts
                       (state o) trace in
        let o' := login check_password_hash st' req' in
        response o' = redirect "patient_dashboard"
        ∧ session' o' = Some (User.id u)
        ∧ current_user (state o') (mkRequest GET (session' o') (form req')
                                             (files req') (salt req'))
          = Some u.
Proof.
  intros Hm HU HP Hfree. simpl. unfold register.
  rewrite Hm, HU, HP, (add_user_free _ _ _ _ Hfree). simpl.
  set (u := User.mk (next_id User.id (users (db st))) U
                    (generate_password_hash (salt req) P) "patient").
  exists u. split_and!; try reflexivity; [apply check_generate|].
  intros trace req' Hm' HU' HP'.
  match goal with |- context [run _ _ _ _ ?s _] => set (st1 := s) end.
  destruct (run_users trace st1) as [more Hmore]. simpl in Hmore.
  assert (head (filter (λ x, User.username x = U) (users (db st) ++ [u]))
          = Some u) as Hhd by (by apply head_filter_app_new).
  unfold login. rewrite Hm', HU', HP', Hmore.
  rewrite (head_filter_prefix _ _ _ _ Hhd).
  simpl. rewrite check_generate. simpl. split_and!; [done|done|].
  unfold current_user, load_user. simpl. rewrite Hmore.
  rewrite !query_get_app, next_id_fresh. simpl.
  by rewrite bool_decide_eq_true_2.
Qed.

(** *** The status of an appointment *)

Lemma handle_appointments st rt req :
  let o := handle generate_password_hash check_password_hash
      numeric_affinity os_accepts st rt req in
  appointments (db (state o)) = appointments (db st)
  ∨ (∃ new, appointments (db (state o)) = appointments (db st) ++ [new])
  ∨ (∃ id action,
       rt = UpdateAppointment id action
       ∧ state o = state (update_appointment id action st req)).
Proof.
  destruct rt;
    try (unfold handle; simpl; destruct (method req); simpl;
         [right; right; by eauto | by left]);
    view_cases;
    first
      [ by left
      | by right; left; eauto
      | match goal with
        | H : add_user _ _ _ _ = Some _ |- _ =>
            apply add_user_Some in H as [_ ->]; by left
        end ].
Qed.

(** C1, as the code has it.  Whatever request is served, an appointment
    row stays in the table with all its fields except possibly its
    status, and its status changes only when the request is
    [update_appointment] for that row, made by the doctor the row
    refers to, with action "accept" (the status becomes "accepted") or
    "reject" (it becomes "rejected").  The status the row had before is
    not consulted: that doctor's "accept" and "reject" take effect from
    any status, so accepted and rejected are not terminal. *)
Theorem status_changes_by_owner st a :
  query_get Appointment.id (Appointment.id a) (appointments (db st)) = Some a →
  (∀ rt req,
     let o := handle generate_password_hash check_password_hash
      numeric_affinity os_accepts st rt req in
     ∃ a',
       query_get Appointment.id (Appointment.id a) (appointments (db (state o)))
       = Some a'
       ∧ a' = Appointment.set_status (Appointment.status a') a
       ∧ (Appointment.status a' = Appointment.status a
          ∨ ∃ u action,
              rt = UpdateAppointment (Appointment.id a) action
              ∧ current_user st req = Some u
              ∧ User.role u = "doctor"
              ∧ Appointment.doctor_id a = Integer (User.id u)
              ∧ ((action = "accept" ∧ Appointment.status a' = "accepted")
                 ∨ (action = "reject" ∧ Appointment.status a' = "rejected"))))
  ∧ (∀ req u,
       current_user st req = Some u →
       User.role u = "doctor" →
       Appointment.doctor_id a = Integer (User.id u) →
       query_get Appointment.id (Appointment.id a)
         (appointments (db (state
            (update_appointment (Appointment.id a) "accept" st req))))
       = Some (Appointment.set_status "accepted" a)
       ∧ query_get Appointment.id (Appointment.id a)
           (appointments (db (state
              (update_appointment (Appointment.id a) "reject" st req))))
         = Some (Appointment.set_status "rejected" a)).
Proof.
  intros Ha.
  assert (a = Appointment.set_status (Appointment.status a) a) as Hsame
    by (by destruct a).
  split.
  - intros rt req. simpl.
    destruct (handle_appointments st rt req) as [-> | [[new ->] | Hupd]].
    + exists a. by split_and!; auto.
    + exists a. rewrite query_get_app, Ha. by split_and!; auto.
    + destruct Hupd as (id & action & -> & ->).
      destruct (update_appointment_effect id action st req)
        as [-> | (u & b & s & Hu & Hb & Hrole & Hown & Hact & ->)].
      * exists a. by split_and!; auto.
      * simpl. rewrite query_get_update, Ha by done. simpl.
        case_bool_decide as Hid.
        -- exists (Appointment.set_status s a). subst id.
           assert (b = a) as -> by congruence.
           split_and!; [done|done|]. right. exists u, action.
           split_and!; [done|done|done|done|].
           destruct Hact as [[-> ->]|[-> ->]]; [by left|by right].
        -- exists a. by split_and!; auto.
  - intros req u Hu Hrole Hown.
    unfold update_appointment, login_required, get_or_404. rewrite Hu, Ha.
    rewrite (bool_decide_eq_false_2 (User.role u ≠ "doctor")) by tauto.
    rewrite (bool_decide_eq_false_2 (Appointment.doctor_id a ≠ Integer (User.id u)))
      by tauto.
    simpl. rewrite !query_get_update, Ha by done. simpl.
    by rewrite bool_decide_eq_true_2.
Qed.

End Properties.

(** ** Concrete runs, with the stand-in password functions *)

Lemma non_owner_denied_witness :
  let st := sample_state "pending" in
  let o1 := update_appointment 1 "accept" st (get_as (Some 4)) in
  let o2 := upload_prescription toy_os 1 st (post_as (Some 4) no_form {["file" := report_pdf]}) in
  (response o1 = redirect "index" ∧ state o1 = st)
  ∧ (response o2 = redirect "index" ∧ state o2 = st).
Proof.
  assert (Appointment.doctor_id (visit1 "pending") ≠ Integer (User.id carol))
    as Hne
    by (vm_compute; discriminate).
  pose proof (non_owner_denied toy_os (sample_state "pending") (get_as (Some 4))
                carol 1 "accept" (visit1 "pending")
                eq_refl eq_refl (or_intror Hne)) as [H1 _].
  pose proof (non_owner_denied toy_os (sample_state "pending")
                (post_as (Some 4) no_form {["file" := report_pdf]})
                carol 1 "accept" (visit1 "pending")
                eq_refl eq_refl (or_intror Hne)) as [_ H2].
  simpl in H1, H2. simpl. by intuition.
Defined.

Lemma other_action_ignored_witness :
  update_appointment 1 "cancel" (sample_state "pending") (get_as (Some 3)) =
    mkOutcome (redirect "doctor_dashboard") [] (sample_state "pending") (Some 3).
Proof.
  apply (other_action_ignored (sample_state "pending") (get_as (Some 3))
           bob 1 "cancel" (visit1 "pending")); by vm_compute.
Defined.


Lemma view_history_lists_witness :
  ∃ appts,
    response (view_history (sample_state "pending") (get_as (Some 2))) =
      render_template "view_history.html"
        [("appointments", CAppointments appts);
         ("prescriptions", CPrescriptions [])]
    ∧ visit1 "pending" ∈ appts.
Proof.
  destruct (view_history_lists (sample_state "pending") (get_as (Some 2)) alice
              eq_refl eq_refl) as (appts & Heq & Hin & _).
  exists appts. split.
  - by rewrite Heq.
  - apply Hin. split; [apply list_elem_of_here|reflexivity].
Defined.

Lemma upload_needs_file_witness :
  upload_prescription toy_os 1 (sample_state "accepted")
      (post_as (Some 3) no_form {["file" := mkFile "" []]})
  = reply (sample_state "accepted")
          (post_as (Some 3) no_form {["file" := mkFile "" []]})
          (render_template "upload_prescription.html"
             [("appointment", CAppointment (visit1 "accepted"))]) [].
Proof.
  destruct (upload_needs_file toy_os (sample_state "accepted")
              (post_as (Some 3) no_form {["file" := mkFile "" []]})
              bob 1 (visit1 "accepted") eq_refl eq_refl eq_refl eq_refl)
    as (H & _).
  by apply (H eq_refl (mkFile "" [])).
Defined.

Lemma book_appointment_creates_witness :
  ∃ a,
    appointments (db (state
      (handle toy_generate toy_check toy_affinity toy_os
         (sample_state "pending") BookAppointment
         (post_as (Some 2)
            (mkForm None None (Some "3") (Some "2024-01-02 09:00")) ∅))))
    = [visit1 "pending"; a]
    ∧ Appointment.status a = "pending"
    ∧ Appointment.patient_id a = 2
    ∧ Appointment.doctor_id a = Integer 3.
Proof.
  destruct (book_appointment_creates toy_generate toy_check toy_affinity toy_os
              (sample_state "pending")
              (post_as (Some 2)
                 (mkForm None None (Some "3") (Some "2024-01-02 09:00")) ∅)
              alice "3" "2024-01-02 09:00" eq_refl eq_refl eq_refl eq_refl)
    as (a & _ & Happ & _ & Hst & Hp & Hd & _).
  exists a. split_and!; [done|done|done|]. by apply Hd.
Defined.

(** C5 as stated fails for a doctor_id that does not fit a database
    integer: for 2^63 + 1 the row does not hold that number (sqlite
    stores a real). *)
Lemma doctor_id_out_of_range :
  ¬ (∀ generate_password_hash check_password_hash numeric_affinity os_accepts
       st req u D z T,
       current_user st req = Some u →
       method req = POST →
       form_doctor_id (form req) = Some D →
       decimal_integer D = Some z →
       form_time (form req) = Some T →
       ∃ a,
         appointments (db (state
           (handle generate_password_hash check_password_hash
                   numeric_affinity os_accepts st BookAppointment req)))
         = appointments (db st) ++ [a]
         ∧ Appointment.doctor_id a = Integer z).
Proof.
  intros H.
  destruct (H toy_generate toy_check toy_affinity toy_os
              (sample_state "pending")
              (post_as (Some 2)
                 (mkForm None None (Some "9223372036854775809") (Some "noon")) ∅)
              alice "9223372036854775809" 9223372036854775809 "noon"
              eq_refl eq_refl eq_refl eq_refl eq_refl)
    as (a & Happ & Hdoc).
  vm_compute in Happ. injection Happ as <-. discriminate Hdoc.
Qed.

(** What the column affinity stores, on the part that does not depend
    on the stand-in. *)
Example integer_column_values :
  integer_column toy_affinity "3" = Integer 3
  ∧ integer_column toy_affinity "-12" = Integer (-12)
  ∧ integer_column toy_affinity "007" = Integer 7
  ∧ integer_column toy_affinity "9223372036854775807"
    = Integer 9223372036854775807
  ∧ integer_column toy_affinity "9223372036854775808"
    = Real "9223372036854775808".
Proof. by vm_compute. Qed.

(** An appointment id that does not fit a database integer is a 500,
    and so is an upload whose file name has a slash; neither writes. *)
Example out_of_range_id_and_slash_name :
  let st := sample_state "accepted" in
  let up := post_as (Some 3) no_form {["file" := mkFile "a/b.pdf" [Byte.x25]]} in
  update_appointment 9223372036854775808 "accept" st (get_as (Some 3))
  = reply st (get_as (Some 3)) (abort 500) []
  ∧ upload_prescription toy_os 9223372036854775808 st (get_as (Some 3))
    = reply st (get_as (Some 3)) (abort 500) []
  ∧ upload_prescription toy_os 1 st up = reply st up (abort 500) [].
Proof. by vm_compute. Qed.

(** C2 at a concrete request: bob, whose role is doctor, posts the
    booking form; the request is not denied and an appointment row with
    bob as the patient is created. *)
Example book_appointment_by_doctor :
  let req := post_as (Some 3) (mkForm None None (Some "4") (Some "2024-01-02 09:00")) ∅ in
  let o := handle toy_generate toy_check toy_affinity toy_os (sample_state "pending") BookAppointment req in
  current_user (sample_state "pending") req = Some bob
  ∧ User.role bob = "doctor"
  ∧ response o = redirect "patient_dashboard"
  ∧ flashed o = [("Appointment booked!", "success")]
  ∧ appointments (db (state o))
    = [visit1 "pending";
       Appointment.mk 2 3 (Integer 4) "2024-01-02 09:00" "pending"].
Proof. by vm_compute. Qed.

Lemma seed_admin_idempotent_witness :
  ∃ d',
    seed_admin toy_generate "s0" empty_db = Some d'
    ∧ users d' = [admin1]
    ∧ seed_admin toy_generate "s9" d' = Some d'.
Proof.
  destruct (seed_admin_idempotent toy_generate "s0" "s9" empty_db)
    as (_ & _ & Hagain).
  exists (mkDB [admin1] [] []). split_and!; [done|done|].
  by apply Hagain.
Defined.


Lemma register_then_login_witness :
  let reg := post_as None (mkForm (Some "dave") (Some "s3cret") None None) ∅ in
  let book := post_as (Some 2) (mkForm None None (Some "3") (Some "noon")) ∅ in
  ∃ u,
    users (db (state (register toy_generate (sample_state "pending") reg)))
    = [admin1; alice; bob; carol; u]
    ∧ User.role u = "patient"
    ∧ session'
        (login toy_check
           (run toy_generate toy_check toy_affinity toy_os
                (state (register toy_generate (sample_state "pending") reg))
                [(BookAppointment, book)])
           reg)
      = Some (User.id u).
Proof.
  assert (Forall (λ u, User.username u ≠ "dave")
                 (users (db (sample_state "pending")))) as Hfree
    by (repeat constructor; discriminate).
  destruct (register_then_login toy_generate toy_check toy_affinity toy_os
              toy_check_generate
              (sample_state "pending")
              (post_as None (mkForm (Some "dave") (Some "s3cret") None None) ∅)
              "dave" "s3cret" eq_refl eq_refl eq_refl Hfree)
    as (u & _ & Husers & _ & Hrole & _ & _ & Hlogin).
  exists u. split_and!; [exact Husers|exact Hrole|].
  by destruct (Hlogin
       [(BookAppointment,
         post_as (Some 2) (mkForm None None (Some "3") (Some "noon")) ∅)]
       (post_as None (mkForm (Some "dave") (Some "s3cret") None None) ∅)
       eq_refl eq_refl eq_refl) as (_ & Hsess & _).
Defined.

Lemma status_changes_by_owner_witness :
  query_get Appointment.id 1
    (appointments (db (state
       (update_appointment 1 "reject" (sample_state "accepted") (get_as (Some 3))))))
  = Some (visit1 "rejected").
Proof.
  destruct (status_changes_by_owner toy_generate toy_check toy_affinity toy_os
              (sample_state "accepted") (visit1 "accepted") eq_refl)
    as [_ Hown].
  by destruct (Hown (get_as (Some 3)) bob eq_refl eq_refl eq_refl) as [_ Hrej].
Defined.

(** ** What a request can do to the state *)

Ltac route_cases :=
  unfold handle, view, index, register, login, logout, admin_login,
    admin_dashboard, add_doctor, patient_dashboard, book_appointment,
    view_history, doctor_dashboard, update_appointment, upload_prescription,
    uploaded_file, login_required, get_or_404, access_denied, bad_request,
    reply;
  repeat case_match; simpl.

Section Effects.

Variable generate_password_hash : string → string → string.
Variable check_password_hash : string → string → bool.
Variable numeric_affinity : string → SqlValue.
Variable os_accepts : string → bool.

(** Every request either leaves the state alone or does one of five
    writes. *)
Lemma handle_effect st rt req :
  let o := handle generate_password_hash check_password_hash
      numeric_affinity os_accepts st rt req in
  state o = st
  ∨ (∃ U P d,
       rt = Register ∧ method req = POST
       ∧ form_username (form req) = Some U ∧ form_password (form req) = Some P
       ∧ add_user U (generate_password_hash (salt req) P) "patient" (db st)
         = Some d
       ∧ state o = mkState d (uploads st))
  ∨ (∃ u U P d,
       rt = AddDoctor ∧ method req = POST
       ∧ current_user st req = Some u ∧ User.role u = "admin"
       ∧ form_username (form req) = Some U ∧ form_password (form req) = Some P
       ∧ add_user U (generate_password_hash (salt req) P) "doctor" (db st)
         = Some d
       ∧ state o = mkState d (uploads st))
  ∨ (∃ u D T,
       rt = BookAppointment ∧ method req = POST
       ∧ current_user st req = Some u
       ∧ form_doctor_id (form req) = Some D ∧ form_time (form req) = Some T
       ∧ state o = mkState (add_appointment
                              (User.id u) (integer_column numeric_affinity D)
                              T (db st))
                           (uploads st))
  ∨ (∃ id action u a s,
       rt = UpdateAppointment id action ∧ method req = GET
       ∧ current_user st req = Some u
       ∧ query_get Appointment.id id (appointments (db st)) = Some a
       ∧ User.role u = "doctor" ∧ Appointment.doctor_id a = Integer (User.id u)
       ∧ ((action = "accept" ∧ s = "accepted")
          ∨ (action = "reject" ∧ s = "rejected"))
       ∧ state o = mkState (set_appointment_status id s (db st)) (uploads st))
  ∨ (∃ id u a f,
       rt = UploadPrescription id ∧ method req = POST
       ∧ current_user st req = Some u
       ∧ query_get Appointment.id id (appointments (db st)) = Some a
       ∧ User.role u = "doctor" ∧ Appointment.doctor_id a = Integer (User.id u)
       ∧ files req !! "file" = Some f ∧ filename f ≠ ""
       ∧ file_savable os_accepts (pretty id +:+ "_" +:+ filename f) = true
       ∧ state o =
           mkState (add_prescription id (pretty id +:+ "_" +:+ filename f)
                                     (db st))
                   (<[upload_path (pretty id +:+ "_" +:+ filename f)
                      := stream f]> (uploads st))).
Proof.
  simpl. unfold handle.
  destruct (allowed rt (method req)) eqn:Hallowed; [|by left].
  destruct rt; simpl; try (left; by route_cases).
  - (* register *)
    unfold register. destruct (method req) eqn:Hm; [by left|].
    destruct (form_username (form req)) as [U|] eqn:HU; [|by left].
    destruct (form_password (form req)) as [P|] eqn:HP; [|by left].
    destruct (add_user _ _ _ _) as [d|] eqn:Hadd; [|by left].
    right; left. exists U, P, d. by split_and!.
  - (* add_doctor *)
    destruct (method req) eqn:Hm; [done|].
    unfold add_doctor, login_required.
    destruct (current_user st req) as [u|] eqn:Hu; [|by left].
    case_bool_decide as Hrole; [by left|].
    destruct (form_username (form req)) as [U|] eqn:HU; [|by left].
    destruct (form_password (form req)) as [P|] eqn:HP; [|by left].
    destruct (add_user _ _ _ _) as [d|] eqn:Hadd; [|by left].
    do 2 right; left. exists u, U, P, d. by split_and!.
  - (* book_appointment *)
    destruct (method req) eqn:Hm; [done|].
    unfold book_appointment, login_required.
    destruct (current_user st req) as [u|] eqn:Hu; [|by left].
    destruct (form_doctor_id (form req)) as [D|] eqn:HD; [|by left].
    destruct (form_time (form req)) as [T|] eqn:HT; [|by left].
    do 3 right; left. exists u, D, T. by split_and!.
  - (* update_appointment *)
    destruct (method req) eqn:Hm; [|done].
    destruct (update_appointment_effect id action st req)
      as [-> | (u & b & s & Hu & Hb & Hrole & Hown & Hact & ->)]; [by left|].
    do 4 right; left. exists id, action, u, b, s. by split_and!.
  - (* upload_prescription *)
    unfold upload_prescription, login_required, get_or_404.
    destruct (current_user st req) as [u|] eqn:Hu; [|by left].
    destruct (query_get _ _ _) as [a|] eqn:Ha; [|by left].
    destruct (query_get_Some _ _ _ _ Ha) as [Hid _].
    destruct (bool_decide_reflect (User.role u ≠ "doctor")) as [|Hrole];
      [by left|].
    destruct (bool_decide_reflect (Appointment.doctor_id a ≠ Integer (User.id u)))
      as [|Hown]; [by left|].
    simpl. apply dec_stable in Hrole. apply dec_stable in Hown.
    destruct (method req) eqn:Hm; [by left|].
    destruct (files req !! "file") as [f|] eqn:Hf; [|by left].
    unfold file_truthy. case_bool_decide as Hname; [|by left].
    destruct (file_savable _ _) eqn:Hsave; [|by left].
    do 5 right. exists appointment_id, u, a, f. rewrite Hid. by split_and!.
Qed.

Lemma next_id_not_in {A} (pk : A → Z) (rows : list A) :
  next_id pk rows ∉ map pk rows.
Proof.
  intros Hin. apply list_elem_of_fmap in Hin as (r & Heq & Hr).
  pose proof (next_id_above pk rows r Hr). lia.
Qed.

Lemma NoDup_keys_snoc {A} (pk : A → Z) (rows : list A) (x : A) :
  pk x = next_id pk rows → NoDup (map pk rows) → NoDup (map pk (rows ++ [x])).
Proof.
  intros Hx Hnd. rewrite map_app. simpl. apply NoDup_app. split_and!.
  - done.
  - intros k Hk Hk'. apply list_elem_of_singleton in Hk'. subst k.
    rewrite Hx in Hk. by apply next_id_not_in in Hk.
  - apply NoDup_singleton.
Qed.

Lemma update_row_booking i s (rows : list Appointment.t) :
  map booking (update_row Appointment.id i (Appointment.set_status s) rows)
  = map booking rows.
Proof.
  unfold update_row. rewrite map_map. apply map_ext. intros a.
  by case_bool_decide.
Qed.

Lemma update_row_keys i s (rows : list Appointment.t) :
  map Appointment.id
      (update_row Appointment.id i (Appointment.set_status s) rows)
  = map Appointment.id rows.
Proof.
  unfold update_row. rewrite map_map. apply map_ext. intros a.
  by case_bool_decide.
Qed.

Lemma handle_constraints st rt req :
  keys_unique (db st) ∧ usernames_unique (db st) →
  keys_unique (db (state (handle generate_password_hash check_password_hash
      numeric_affinity os_accepts st rt req)))
  ∧ usernames_unique (db (state (handle generate_password_hash check_password_hash
      numeric_affinity os_accepts st rt req))).
Proof.
  intros [(Hu & Ha & Hp) Hn].
  destruct (handle_effect st rt req)
    as [-> | [(U & P & d & _ & _ & _ & _ & Hadd & ->)
       | [(u & U & P & d & _ & _ & _ & _ & _ & _ & Hadd & ->)
       | [(u & D & T & _ & _ & _ & _ & _ & ->)
       | [(id & action & u & a & s & _ & _ & _ & _ & _ & _ & _ & ->)
       | (id & u & a & f & _ & _ & _ & _ & _ & _ & _ & _ & _ & ->)]]]]].
  - done.
  - apply add_user_Some in Hadd as [Hfree ->].
    unfold keys_unique, usernames_unique. simpl. split_and!; try done.
    + by apply NoDup_keys_snoc.
    + rewrite map_app. simpl. apply NoDup_app. split_and!; [done| |apply NoDup_singleton].
      intros k Hk Hk'. apply list_elem_of_singleton in Hk'. subst k.
      apply list_elem_of_fmap in Hk as (x & Hx & Hin).
      rewrite Forall_forall in Hfree. by apply (Hfree x Hin).
  - apply add_user_Some in Hadd as [Hfree ->].
    unfold keys_unique, usernames_unique. simpl. split_and!; try done.
    + by apply NoDup_keys_snoc.
    + rewrite map_app. simpl. apply NoDup_app. split_and!; [done| |apply NoDup_singleton].
      intros k Hk Hk'. apply list_elem_of_singleton in Hk'. subst k.
      apply list_elem_of_fmap in Hk as (x & Hx & Hin).
      rewrite Forall_forall in Hfree. by apply (Hfree x Hin).
  - unfold keys_unique, usernames_unique. simpl. split_and!; try done.
    by apply NoDup_keys_snoc.
  - unfold keys_unique, usernames_unique. simpl. split_and!; try done.
    by rewrite update_row_keys.
  - unfold keys_unique, usernames_unique. simpl. split_and!; try done.
    by apply NoDup_keys_snoc.
Qed.

(** X1: the constraints of the schema are kept by every sequence of
    requests: if primary keys are unique in each table and user names
    are pairwise distinct, they still are afterwards. *)
Theorem schema_constraints_kept st trace :
  keys_unique (db st) → usernames_unique (db st) →
  keys_unique (db (run generate_password_hash check_password_hash
      numeric_affinity os_accepts st trace))
  ∧ usernames_unique (db (run generate_password_hash check_password_hash
      numeric_affinity os_accepts st trace)).
Proof.
  revert st. induction trace as [|[rt req] trace IH]; intros st Hk Hn; simpl.
  - done.
  - destruct (handle_constraints st rt req (conj Hk Hn)) as [Hk' Hn'].
    by apply IH.
Qed.

Lemma query_get_is_Some_app {A} (pk : A → Z) i (rows more : list A) :
  is_Some (query_get pk i rows) → is_Some (query_get pk i (rows ++ more)).
Proof. rewrite query_get_app. by intros [r ->]. Qed.

Lemma current_user_resolves st req u :
  current_user st req = Some u →
  query_get User.id (User.id u) (users (db st)) = Some u.
Proof.
  unfold current_user, load_user. destruct (session req) as [i|]; [|done].
  simpl. intros Hget. destruct (query_get_Some _ _ _ _ Hget) as [-> _]. done.
Qed.

Lemma handle_references st rt req :
  references_resolve (db st) →
  references_resolve (db (state (handle generate_password_hash check_password_hash
      numeric_affinity os_accepts st rt req))).
Proof.
  intros [Ha Hp].
  destruct (handle_effect st rt req)
    as [-> | [(U & P & d & _ & _ & _ & _ & Hadd & ->)
       | [(u & U & P & d & _ & _ & _ & _ & _ & _ & Hadd & ->)
       | [(u & D & T & _ & _ & Hu & _ & _ & ->)
       | [(id & action & u & a & s & _ & _ & _ & _ & _ & _ & _ & ->)
       | (id & u & a & f & _ & _ & _ & Hget & _ & _ & _ & _ & _ & ->)]]]]].
  - done.
  - apply add_user_Some in Hadd as [_ ->]. split; simpl; [|done].
    eapply Forall_impl; [exact Ha|]. intros a. apply query_get_is_Some_app.
  - apply add_user_Some in Hadd as [_ ->]. split; simpl; [|done].
    eapply Forall_impl; [exact Ha|]. intros a. apply query_get_is_Some_app.
  - split; simpl.
    + apply Forall_app. split; [done|]. apply Forall_singleton. simpl.
      rewrite (current_user_resolves _ _ _ Hu). by eexists.
    + eapply Forall_impl; [exact Hp|]. intros p. apply query_get_is_Some_app.
  - split; simpl.
    + apply Forall_forall. intros x Hx.
      apply list_elem_of_fmap in Hx as (y & -> & Hy).
      rewrite Forall_forall in Ha. specialize (Ha y Hy).
      by case_bool_decide.
    + eapply Forall_impl; [exact Hp|]. intros p [b Hb].
      rewrite query_get_update, Hb by done. by eexists.
  - split; simpl; [done|].
    apply Forall_app. split; [done|]. apply Forall_singleton. simpl.
    rewrite Hget. by eexists.
Qed.

(** X2: the references the views write always resolve.  If every
    appointment's patient is a user row and every prescription's
    appointment is an appointment row, this is still so after any
    sequence of requests (the doctor of an appointment is never
    checked, so nothing of the kind holds for [doctor_id]). *)
Theorem references_stay_resolved st trace :
  references_resolve (db st) →
  references_resolve (db (run generate_password_hash check_password_hash
      numeric_affinity os_accepts st trace)).
Proof.
  revert st. induction trace as [|[rt req] trace IH]; intros st Hr; simpl.
  - done.
  - apply IH. by apply handle_references.
Qed.

Lemma handle_keeps_rows st rt req :
  let st' := state (handle generate_password_hash check_password_hash
      numeric_affinity os_accepts st rt req) in
  users (db st) `prefix_of` users (db st')
  ∧ map booking (appointments (db st))
    `prefix_of` map booking (appointments (db st'))
  ∧ prescriptions (db st) `prefix_of` prescriptions (db st')
  ∧ dom (uploads st) ⊆ dom (uploads st').
Proof.
  simpl.
  destruct (handle_effect st rt req)
    as [-> | [(U & P & d & _ & _ & _ & _ & Hadd & ->)
       | [(u & U & P & d & _ & _ & _ & _ & _ & _ & Hadd & ->)
       | [(u & D & T & _ & _ & Hu & _ & _ & ->)
       | [(id & action & u & a & s & _ & _ & _ & _ & _ & _ & _ & ->)
       | (id & u & a & f & _ & _ & _ & Hget & _ & _ & _ & _ & _ & ->)]]]]].
  - done.
  - apply add_user_Some in Hadd as [_ ->]. simpl.
    split_and!; [by apply prefix_app_r|done|done|done].
  - apply add_user_Some in Hadd as [_ ->]. simpl.
    split_and!; [by apply prefix_app_r|done|done|done].
  - simpl. split_and!; [done| |done|done].
    rewrite map_app. by apply prefix_app_r.
  - simpl. split_and!; [done| |done|done]. by rewrite update_row_booking.
  - simpl. split_and!; [done|done|by apply prefix_app_r|].
    rewrite dom_insert. set_solver.
Qed.

(** X21: no request deletes anything.  After any sequence of requests
    the user rows and the prescription rows that were there are still
    there, unchanged and in front of any new ones; so are the
    appointment rows, up to their status; and every stored file path is
    still stored. *)
Theorem nothing_is_deleted st trace :
  let st' := run generate_password_hash check_password_hash
      numeric_affinity os_accepts st trace in
  users (db st) `prefix_of` users (db st')
  ∧ map booking (appointments (db st))
    `prefix_of` map booking (appointments (db st'))
  ∧ prescriptions (db st) `prefix_of` prescriptions (db st')
  ∧ dom (uploads st) ⊆ dom (uploads st').
Proof.
  revert st. induction trace as [|[rt req] trace IH]; intros st; simpl.
  - done.
  - destruct (handle_keeps_rows st rt req) as (Hu & Ha & Hp & Hf).
    destruct (IH (state (handle generate_password_hash check_password_hash
      numeric_affinity os_accepts
                                st rt req)))
      as (Hu' & Ha' & Hp' & Hf').
    split_and!; by etrans.
Qed.

(** X3: a GET request changes nothing in the database or the upload
    directory, with one exception: [update_appointment] is routed for
    GET and, when it writes, rewrites the status of appointment rows. *)
Theorem get_writes_only_status st rt req :
  method req = GET →
  let o := handle generate_password_hash check_password_hash
      numeric_affinity os_accepts st rt req in
  state o = st
  ∨ ∃ id action s,
      rt = UpdateAppointment id action
      ∧ state o = mkState (set_appointment_status id s (db st)) (uploads st).
Proof.
  intros Hm. simpl.
  destruct (handle_effect st rt req)
    as [-> | [(U & P & d & _ & Hm' & _)
       | [(u & U & P & d & _ & Hm' & _)
       | [(u & D & T & _ & Hm' & _)
       | [(id & action & u & a & s & -> & _ & _ & _ & _ & _ & _ & ->)
       | (id & u & a & f & _ & Hm' & _)]]]]]; try congruence.
  - by left.
  - right. by exists id, action, s.
Qed.


(** X5: a Prescription row is only ever added by [upload_prescription],
    on a POST by the doctor the appointment refers to, together with
    the file; the row points at that appointment and at the stored file
    name, which is the appointment id, an underscore and the name of
    the uploaded file. *)
Theorem prescription_only_by_doctor st rt req :
  let o := handle generate_password_hash check_password_hash
      numeric_affinity os_accepts st rt req in
  prescriptions (db (state o)) ≠ prescriptions (db st)
  ∨ uploads (state o) ≠ uploads st →
  ∃ id u a f p,
    rt = UploadPrescription id ∧ method req = POST
    ∧ current_user st req = Some u ∧ User.role u = "doctor"
    ∧ query_get Appointment.id id (appointments (db st)) = Some a
    ∧ Appointment.doctor_id a = Integer (User.id u)
    ∧ files req !! "file" = Some f
    ∧ prescriptions (db (state o)) = prescriptions (db st) ++ [p]
    ∧ Prescription.appointment_id p = id
    ∧ Prescription.file_url p = pretty id +:+ "_" +:+ filename f
    ∧ uploads (state o) !! upload_path (Prescription.file_url p)
      = Some (stream f).
Proof.
  simpl. intros Hchg.
  destruct (handle_effect st rt req)
    as [Heq | [(U & P & d & _ & _ & _ & _ & Hadd & Heq)
       | [(u & U & P & d & _ & _ & _ & _ & _ & _ & Hadd & Heq)
       | [(u & D & T & _ & _ & _ & _ & _ & Heq)
       | [(id & action & u & a & s & _ & _ & _ & _ & _ & _ & _ & Heq)
       | (id & u & a & f & -> & Hm & Hu & Ha & Hrole & Hown & Hf & _ & _ & Heq)]]]]];
    rewrite Heq in Hchg |- *; simpl in *.
  - by destruct Hchg.
  - apply add_user_Some in Hadd as [_ ->]. by destruct Hchg.
  - apply add_user_Some in Hadd as [_ ->]. by destruct Hchg.
  - by destruct Hchg.
  - by destruct Hchg.
  - eexists id, u, a, f, _. split_and!; try done. simpl.
    by rewrite lookup_insert_eq.
Qed.

Lemma handle_admins st rt req :
  filter (λ u, User.role u = "admin")
         (users (db (state (handle generate_password_hash check_password_hash
      numeric_affinity os_accepts
                                   st rt req))))
  = filter (λ u, User.role u = "admin") (users (db st)).
Proof.
  destruct (handle_effect st rt req)
    as [-> | [(U & P & d & _ & _ & _ & _ & Hadd & ->)
       | [(u & U & P & d & _ & _ & _ & _ & _ & _ & Hadd & ->)
       | [(u & D & T & _ & _ & _ & _ & _ & ->)
       | [(id & action & u & a & s & _ & _ & _ & _ & _ & _ & _ & ->)
       | (id & u & a & f & _ & _ & _ & _ & _ & _ & _ & _ & _ & ->)]]]]];
    try done.
  - apply add_user_Some in Hadd as [_ ->]. simpl.
    rewrite filter_app, filter_cons_False by done. by rewrite app_nil_r.
  - apply add_user_Some in Hadd as [_ ->]. simpl.
    rewrite filter_app, filter_cons_False by done. by rewrite app_nil_r.
Qed.

(** X6: no sequence of requests creates, removes or alters an account
    with role admin: the admin rows after the requests are the admin
    rows before them.  (Registration always writes role patient and
    [add_doctor] always writes role doctor.) *)
Theorem admins_are_fixed st trace :
  filter (λ u, User.role u = "admin")
         (users (db (run generate_password_hash check_password_hash
      numeric_affinity os_accepts st trace)))
  = filter (λ u, User.role u = "admin") (users (db st)).
Proof.
  revert st. induction trace as [|[rt req] trace IH]; intros st; simpl.
  - done.
  - by rewrite IH, handle_admins.
Qed.

Lemma head_filter_Some {A} (P : A → Prop) `{∀ x, Decision (P x)}
    (l : list A) (x : A) :
  head (filter P l) = Some x → x ∈ l ∧ P x.
Proof.
  intros Hhd. cut (x ∈ filter P l); [rewrite list_elem_of_filter; tauto|].
  destruct (filter P l) as [|y k]; [done|].
  injection Hhd as ->. apply list_elem_of_here.
Qed.

(** X7: the session changes only at [logout], which empties it, and at
    a POST to [login] or [admin_login], which binds it to a user row
    whose name is the submitted name and whose stored hash verifies the
    submitted password (for [admin_login], a row with role admin).
    Every other request leaves the session as it came. *)
Theorem session_only_by_login st rt req :
  let o := handle generate_password_hash check_password_hash
      numeric_affinity os_accepts st rt req in
  session' o = session req
  ∨ (rt = Logout ∧ session' o = None)
  ∨ ∃ u P,
      (rt = Login ∨ (rt = AdminLogin ∧ User.role u = "admin"))
      ∧ method req = POST
      ∧ u ∈ users (db st)
      ∧ form_username (form req) = Some (User.username u)
      ∧ form_password (form req) = Some P
      ∧ check_password_hash (User.password u) P = true
      ∧ session' o = Some (User.id u).
Proof.
  simpl. unfold handle.
  destruct (allowed rt (method req)); [|by left].
  destruct rt; simpl; try (left; by route_cases).
  - (* login *)
    unfold login. destruct (method req) eqn:Hm; [by left|].
    destruct (form_username (form req)) as [U|] eqn:HU; [|by left].
    destruct (form_password (form req)) as [P|] eqn:HP; [|by left].
    destruct (head _) as [u|] eqn:Hhd; [|by left].
    apply head_filter_Some in Hhd as [Hin Hname].
    destruct (check_password_hash _ _) eqn:Hchk; [|by left].
    do 2 right. exists u, P. rewrite Hname.
    split_and!; try done; [by left|]. by repeat case_bool_decide.
  - (* logout *)
    unfold logout, login_required.
    destruct (current_user st req); [right; by left|by left].
  - (* admin_login *)
    unfold admin_login. destruct (method req) eqn:Hm; [by left|].
    destruct (form_username (form req)) as [U|] eqn:HU; [|by left].
    destruct (form_password (form req)) as [P|] eqn:HP; [|by left].
    destruct (head _) as [u|] eqn:Hhd; [|by left].
    apply head_filter_Some in Hhd as [Hin [Hname Hrole]].
    destruct (check_password_hash _ _) eqn:Hchk; [|by left].
    do 2 right. exists u, P. rewrite Hname.
    split_and!; try done. by right.
Qed.

(** X8: the views that only test the role of the caller turn away every
    logged-in caller with another role: the admin dashboard and
    [add_doctor] want admin, the patient dashboard and [view_history]
    want patient, the doctor dashboard wants doctor.  The answer is the
    "Access denied" redirect to the index page and nothing is written. *)
Theorem wrong_role_denied st rt req u r :
  required_role rt = Some r →
  current_user st req = Some u →
  User.role u ≠ r →
  view generate_password_hash check_password_hash
      numeric_affinity os_accepts rt st req
  = mkOutcome (redirect "index") [("Access denied", "danger")] st (session req).
Proof.
  intros Hreq Hu Hrole.
  destruct rt; try discriminate Hreq; injection Hreq as <-; simpl;
    unfold admin_dashboard, add_doctor, patient_dashboard, view_history,
      doctor_dashboard, login_required;
    rewrite Hu; by rewrite bool_decide_eq_true_2.
Qed.

Lemma handle_files_match st rt req :
  files_match_rows st →
  files_match_rows (state (handle generate_password_hash check_password_hash
      numeric_affinity os_accepts st rt req)).
Proof.
  intros [Hrows Hfiles].
  destruct (handle_effect st rt req)
    as [-> | [(U & P & d & _ & _ & _ & _ & Hadd & ->)
       | [(u & U & P & d & _ & _ & _ & _ & _ & _ & Hadd & ->)
       | [(u & D & T & _ & _ & _ & _ & _ & ->)
       | [(id & action & u & a & s & _ & _ & _ & _ & _ & _ & _ & ->)
       | (id & u & a & f & _ & _ & _ & _ & _ & _ & _ & _ & _ & ->)]]]]];
    try done.
  - by apply add_user_Some in Hadd as [_ ->].
  - by apply add_user_Some in Hadd as [_ ->].
  - split; simpl.
    + apply Forall_app. split.
      * eapply Forall_impl; [exact Hrows|]. intros p [c Hc]. simpl in Hc.
        rewrite lookup_insert. case_decide; by eexists.
      * apply Forall_singleton. simpl. rewrite lookup_insert_eq. by eexists.
    + intros path. rewrite lookup_insert. case_decide as Hpath.
      * intros _. eexists. split; [apply elem_of_app; right; apply list_elem_of_here|].
        by rewrite <- Hpath.
      * intros Hsome. destruct (Hfiles path Hsome) as (p & Hp & ->).
        exists p. split; [|done]. apply elem_of_app. by left.
Qed.

(** X22: rows and files go together.  If every Prescription row has its
    file in the upload directory and every stored file is the file of
    some row, this is still so after any sequence of requests: no
    request stores a file without its row or a row without its file,
    and none removes either. *)
Theorem files_and_rows_agree st trace :
  files_match_rows st → files_match_rows (run generate_password_hash check_password_hash
      numeric_affinity os_accepts st trace).
Proof.
  revert st. induction trace as [|[rt req] trace IH]; intros st Hm; simpl.
  - done.
  - apply IH. by apply handle_files_match.
Qed.

(** *** Logging in *)

Lemma NoDup_fmap_eq {A B} (f : A → B) (l : list A) x y :
  NoDup (map f l) → x ∈ l → y ∈ l → f x = f y → x = y.
Proof.
  induction l as [|z l IH]; simpl; intros Hnd Hx Hy Heq.
  - by apply not_elem_of_nil in Hx.
  - apply NoDup_cons in Hnd as [Hz Hnd].
    apply elem_of_cons in Hx as [->|Hx];
      apply elem_of_cons in Hy as [->|Hy]; try done.
    + destruct Hz. rewrite Heq. by apply list_elem_of_fmap_2.
    + destruct Hz. rewrite <- Heq. by apply list_elem_of_fmap_2.
    + by apply IH.
Qed.

Lemma head_filter_unique {A B} `{EqDecision B} (f : A → B) (l : list A) x :
  NoDup (map f l) → x ∈ l → head (filter (λ y, f y = f x) l) = Some x.
Proof.
  intros Hnd Hx.
  destruct (head (filter (λ y, f y = f x) l)) as [y|] eqn:Hhd.
  - apply head_filter_Some in Hhd as [Hy Heq].
    f_equal. by apply (NoDup_fmap_eq f l).
  - apply head_filter_None in Hhd. rewrite Forall_forall in Hhd.
    by destruct (Hhd x Hx).
Qed.

(** X9: a POST to [login] with a user name and a password such that no
    user row of that name has a hash verifying the password (no such
    row at all, or a wrong password) shows the login form again with
    "Invalid credentials"; the answer is the same in both cases, and
    neither the state nor the session changes. *)
Theorem login_rejects st req U P :
  method req = POST →
  form_username (form req) = Some U →
  form_password (form req) = Some P →
  (∀ u, u ∈ users (db st) → User.username u = U →
        check_password_hash (User.password u) P = false) →
  login check_password_hash st req
  = mkOutcome (render_template "login.html" [])
              [("Invalid credentials", "danger")] st (session req).
Proof.
  intros Hm HU HP Hbad. unfold login. rewrite Hm, HU, HP.
  destruct (head _) as [u|] eqn:Hhd; [|done].
  apply head_filter_Some in Hhd as [Hin Hname].
  by rewrite (Hbad u Hin Hname).
Qed.

(** X10: with distinct user names, a POST to [login] with the name of a
    user row and a password its hash verifies binds the session to that
    user, writes nothing, and redirects by role: patient, doctor and
    admin go to their dashboards; a row with any other role is logged
    in as well but is shown the login form again. *)
Theorem login_by_role st req u P :
  method req = POST →
  form_username (form req) = Some (User.username u) →
  form_password (form req) = Some P →
  usernames_unique (db st) →
  u ∈ users (db st) →
  check_password_hash (User.password u) P = true →
  let o := login check_password_hash st req in
  session' o = Some (User.id u) ∧ state o = st ∧ flashed o = []
  ∧ response o =
      if bool_decide (User.role u = "patient") then redirect "patient_dashboard"
      else if bool_decide (User.role u = "doctor") then redirect "doctor_dashboard"
      else if bool_decide (User.role u = "admin") then redirect "admin_dashboard"
      else render_template "login.html" [].
Proof.
  intros Hm HU HP Hnd Hin Hchk. simpl. unfold login. rewrite Hm, HU, HP.
  rewrite (head_filter_unique User.username _ u Hnd Hin), Hchk.
  by repeat case_bool_decide.
Qed.

(** X11: [admin_login] only lets admins in.  With distinct user names, a
    POST with the name of a user row whose role is not admin is
    answered "Invalid admin credentials" whatever the password, even
    the right one, and the session is not changed; with the name of an
    admin row and a password its hash verifies, the session is bound to
    that row and the answer is the redirect to the admin dashboard. *)
Theorem admin_login_admin_only st req u P :
  method req = POST →
  form_username (form req) = Some (User.username u) →
  form_password (form req) = Some P →
  usernames_unique (db st) →
  u ∈ users (db st) →
  let o := admin_login check_password_hash st req in
  (User.role u ≠ "admin" →
     o = mkOutcome (render_template "admin_login.html" [])
                   [("Invalid admin credentials", "danger")] st (session req))
  ∧ (User.role u = "admin" →
     check_password_hash (User.password u) P = true →
     o = mkOutcome (redirect "admin_dashboard") [] st (Some (User.id u))).
Proof.
  intros Hm HU HP Hnd Hin. simpl. unfold admin_login. rewrite Hm, HU, HP.
  destruct (head _) as [x|] eqn:Hhd.
  - apply head_filter_Some in Hhd as [Hx [Hname Hrole]].
    assert (x = u) as -> by (by apply (NoDup_fmap_eq User.username (users (db st)))).
    split; [done|]. by intros _ ->.
  - apply head_filter_None in Hhd. rewrite Forall_forall in Hhd.
    split; [done|]. intros Hrole _. by destruct (Hhd u Hin).
Qed.

(** X12: the ways a POST to [register] fails.  A form without user name
    or without password is a 400; a user name that a row already has
    makes the commit fail on the unique column, which is a 500.  In
    both cases no row is written. *)
Theorem register_failures st req :
  method req = POST →
  let o := register generate_password_hash st req in
  (form_username (form req) = None ∨ form_password (form req) = None →
     o = mkOutcome (abort 400) [] st (session req))
  ∧ (∀ U P u,
       form_username (form req) = Some U →
       form_password (form req) = Some P →
       u ∈ users (db st) → User.username u = U →
       o = mkOutcome (abort 500) [] st (session req)).
Proof.
  intros Hm. simpl. unfold register. rewrite Hm. split.
  - intros [-> | ->]; [done|]. by destruct (form_username (form req)).
  - intros U P u -> -> Hin Hname. unfold add_user.
    rewrite bool_decide_eq_true_2; [done|].
    apply Exists_exists. by exists u.
Qed.

(** X13: the seeding step fails (the insert violates the unique user
    name) exactly when no row has role admin while some row is already
    named "admin"; in every other case it succeeds. *)
Theorem seed_admin_fails_iff slt d :
  seed_admin generate_password_hash slt d = None
  ↔ Forall (λ u, User.role u ≠ "admin") (users d)
    ∧ Exists (λ u, User.username u = "admin") (users d).
Proof.
  unfold seed_admin, add_user. split.
  - destruct (head _) as [a|] eqn:Hhd; [done|].
    apply head_filter_None in Hhd. by case_bool_decide.
  - intros [Hnone Hname].
    destruct (head _) as [a|] eqn:Hhd.
    + apply head_filter_Some in Hhd as [Hin Hrole].
      rewrite Forall_forall in Hnone. by destruct (Hnone a Hin).
    + by rewrite bool_decide_eq_true_2.
Qed.

(** *** Round trips through the password functions *)

Hypothesis check_generate :
  ∀ slt pw, check_password_hash (generate_password_hash slt pw) pw = true.

(** X14: an admin who posts a user name that no row has yet, with a
    password, to [add_doctor] adds one user row with that name, role
    doctor and the hash of the password, and is sent back to the admin
    dashboard; from then on, after any further requests, a login with
    that name and password succeeds and leads to the doctor dashboard. *)
Theorem add_doctor_then_login st req a U P :
  current_user st req = Some a →
  User.role a = "admin" →
  form_username (form req) = Some U →
  form_password (form req) = Some P →
  Forall (λ u, User.username u ≠ U) (users (db st)) →
  let o := add_doctor generate_password_hash st req in
  ∃ d,
    response o = redirect "admin_dashboard"
    ∧ users (db (state o)) = users (db st) ++ [d]
    ∧ User.username d = U
    ∧ User.role d = "doctor"
    ∧ User.password d = generate_password_hash (salt req) P
    ∧ ∀ trace req',
        method req' = POST →
        form_username (form req') = Some U →
        form_password (form req') = Some P →
        let o' := login check_password_hash
                        (run generate_password_hash check_password_hash
      numeric_affinity os_accepts
                             (state o) trace) req' in
        response o' = redirect "doctor_dashboard"
        ∧ session' o' = Some (User.id d).
Proof.
  intros Ha Hrole HU HP Hfree. simpl. unfold add_doctor, login_required.
  rewrite Ha, bool_decide_eq_false_2 by tauto.
  rewrite HU, HP, (add_user_free _ _ _ _ Hfree). simpl.
  set (d := User.mk (next_id User.id (users (db st))) U
                    (generate_password_hash (salt req) P) "doctor").
  exists d. split_and!; try reflexivity.
  intros trace req' Hm' HU' HP'.
  match goal with |- context [run _ _ _ _ ?s _] => set (st1 := s) end.
  destruct (run_users generate_password_hash check_password_hash
              numeric_affinity os_accepts trace st1)
    as [more Hmore]. simpl in Hmore.
  assert (head (filter (λ x, User.username x = U) (users (db st) ++ [d]))
          = Some d) as Hhd by (by apply head_filter_app_new).
  unfold login. rewrite Hm', HU', HP', Hmore.
  rewrite (head_filter_prefix _ _ _ _ Hhd).
  simpl. by rewrite check_generate.
Qed.

(** X15: the default admin account.  When the seeding step inserts the
    admin (no row had role admin), a POST to [admin_login] with user
    name "admin" and password "admin123" succeeds, and keeps succeeding
    after any sequence of requests: no request changes a password. *)
Theorem default_admin_login slt d d' ups trace req :
  Forall (λ u, User.role u ≠ "admin") (users d) →
  seed_admin generate_password_hash slt d = Some d' →
  method req = POST →
  form_username (form req) = Some "admin" →
  form_password (form req) = Some "admin123" →
  let st' := run generate_password_hash check_password_hash
      numeric_affinity os_accepts (mkState d' ups) trace in
  admin_login check_password_hash st' req
  = mkOutcome (redirect "admin_dashboard") [] st'
              (Some (next_id User.id (users d))).
Proof.
  intros Hnone Hseed Hm HU HP. simpl.
  unfold seed_admin in Hseed.
  destruct (head _) as [x|] eqn:Hhd in Hseed.
  - apply head_filter_Some in Hhd as [Hin Hrole].
    rewrite Forall_forall in Hnone. by destruct (Hnone x Hin).
  - apply add_user_Some in Hseed as [_ ->]. clear Hhd.
    set (a := User.mk (next_id User.id (users d)) "admin"
                      (generate_password_hash slt "admin123") "admin").
    destruct (run_users generate_password_hash check_password_hash
              numeric_affinity os_accepts trace
                (mkState (mkDB (users d ++ [a]) (appointments d)
                               (prescriptions d)) ups))
      as [more Hmore]. simpl in Hmore.
    assert (head (filter (λ u, User.username u = "admin" ∧ User.role u = "admin")
                         (users d ++ [a])) = Some a) as Hhd.
    { apply head_filter_app_new; [|done].
      eapply Forall_impl; [exact Hnone|]. simpl. tauto. }
    unfold admin_login. rewrite Hm, HU, HP. fold a. rewrite Hmore.
    rewrite (head_filter_prefix _ _ _ _ Hhd). simpl.
    by rewrite check_generate.
Qed.

End Effects.

(** ** Dashboards, logout and the life of an appointment *)

(** X16: what the three dashboards show.  The doctor dashboard lists
    exactly the appointments whose doctor is the caller; the patient
    dashboard lists exactly the users with role doctor and the
    appointments whose patient is the caller; the admin dashboard lists
    exactly the users with role doctor and those with role patient
    (admins are on neither list).  None of them writes anything. *)
Theorem dashboards_list st req u :
  current_user st req = Some u →
  (User.role u = "doctor" →
     ∃ appts,
       doctor_dashboard st req
       = reply st req
               (render_template "doctor_dashboard.html"
                  [("appointments", CAppointments appts)]) []
       ∧ ∀ a, a ∈ appts ↔
              a ∈ appointments (db st) ∧ Appointment.doctor_id a = Integer (User.id u))
  ∧ (User.role u = "patient" →
     ∃ doctors appts,
       patient_dashboard st req
       = reply st req
               (render_template "patient_dashboard.html"
                  [("doctors", CUsers doctors);
                   ("appointments", CAppointments appts)]) []
       ∧ (∀ x, x ∈ doctors ↔ x ∈ users (db st) ∧ User.role x = "doctor")
       ∧ ∀ a, a ∈ appts ↔
              a ∈ appointments (db st) ∧ Appointment.patient_id a = User.id u)
  ∧ (User.role u = "admin" →
     ∃ doctors patients,
       admin_dashboard st req
       = reply st req
               (render_template "admin_dashboard.html"
                  [("doctors", CUsers doctors);
                   ("patients", CUsers patients)]) []
       ∧ (∀ x, x ∈ doctors ↔ x ∈ users (db st) ∧ User.role x = "doctor")
       ∧ ∀ x, x ∈ patients ↔ x ∈ users (db st) ∧ User.role x = "patient").
Proof.
  intros Hu. split_and!; intros Hrole;
    unfold doctor_dashboard, patient_dashboard, admin_dashboard, login_required;
    rewrite Hu, bool_decide_eq_false_2 by tauto.
  - eexists. split; [reflexivity|].
    intros a. rewrite list_elem_of_filter. tauto.
  - do 2 eexists. split_and!; [reflexivity| |].
    + intros x. rewrite list_elem_of_filter. tauto.
    + intros a. rewrite list_elem_of_filter. tauto.
  - do 2 eexists. split_and!; [reflexivity| |].
    + intros x. rewrite list_elem_of_filter. tauto.
    + intros x. rewrite list_elem_of_filter. tauto.
Qed.


(** X18: booking and answering compose.  After a logged-in caller has
    booked with a doctor_id that is the decimal integer z, within the
    range of a database integer, at time T, the appointment has the
    next key of the table; the doctor whose id is z can accept it,
    after which the row reads accepted with patient, doctor and time as
    booked; a doctor with another id is denied and the row stays
    pending. *)
Theorem book_then_accept numeric_affinity st req u D z T req2 d :
  current_user st req = Some u →
  form_doctor_id (form req) = Some D →
  decimal_integer D = Some z →
  sqlite_int z = true →
  form_time (form req) = Some T →
  let st1 := state (book_appointment numeric_affinity st req) in
  let i := next_id Appointment.id (appointments (db st)) in
  current_user st1 req2 = Some d →
  User.role d = "doctor" →
  let o := update_appointment i "accept" st1 req2 in
  query_get Appointment.id i (appointments (db st1))
  = Some (Appointment.mk i (User.id u) (Integer z) T "pending")
  ∧ (User.id d = z →
     response o = redirect "doctor_dashboard"
     ∧ query_get Appointment.id i (appointments (db (state o)))
       = Some (Appointment.mk i (User.id u) (Integer z) T "accepted"))
  ∧ (User.id d ≠ z →
     response o = redirect "index" ∧ state o = st1).
Proof.
  intros Hu HD Hz Hfit HT.
  assert (state (book_appointment numeric_affinity st req)
          = mkState (add_appointment (User.id u) (Integer z) T (db st))
                    (uploads st))
    as Hst1.
  { unfold book_appointment, login_required, integer_column.
    by rewrite Hu, HD, HT, Hz, Hfit. }
  simpl. rewrite Hst1. clear Hst1. intros Hd Hrole.
  set (i := next_id Appointment.id (appointments (db st))).
  set (new := Appointment.mk i (User.id u) (Integer z) T "pending").
  assert (query_get Appointment.id i (appointments (db st) ++ [new]) = Some new)
    as Hnew.
  { rewrite query_get_app. unfold i at 1. rewrite next_id_fresh. simpl.
    by rewrite bool_decide_eq_true_2. }
  unfold update_appointment, login_required, get_or_404. rewrite Hd. simpl.
  fold i new. rewrite Hnew. split_and!; [done| |].
  - intros Hown.
    rewrite (bool_decide_eq_false_2 (User.role d ≠ "doctor")) by tauto.
    rewrite (bool_decide_eq_false_2
               (Appointment.doctor_id new ≠ Integer (User.id d)))
      by (simpl; intros Hne; apply Hne; by rewrite Hown).
    subst new i. simpl in *. split; [done|].
    rewrite query_get_update, Hnew by done. simpl.
    by rewrite bool_decide_eq_true_2.
  - intros Hother.
    rewrite (bool_decide_eq_true_2
               (Appointment.doctor_id new ≠ Integer (User.id d)))
      by (simpl; congruence).
    by rewrite orb_true_r.
Qed.

(** *** Uploaded files *)

Lemma upload_prescription_stores os_accepts st req u id a f :
  current_user st req = Some u →
  query_get Appointment.id id (appointments (db st)) = Some a →
  User.role u = "doctor" →
  Appointment.doctor_id a = Integer (User.id u) →
  method req = POST →
  files req !! "file" = Some f →
  filename f ≠ "" →
  file_savable os_accepts (pretty id +:+ "_" +:+ filename f) = true →
  state (upload_prescription os_accepts id st req)
  = mkState (add_prescription id (pretty id +:+ "_" +:+ filename f) (db st))
            (<[upload_path (pretty id +:+ "_" +:+ filename f) := stream f]>
               (uploads st)).
Proof.
  intros Hu Ha Hrole Hown Hm Hf Hname Hsave.
  destruct (query_get_Some _ _ _ _ Ha) as [Hid _].
  unfold upload_prescription, login_required, get_or_404.
  rewrite Hu, Ha, Hm, Hf.
  rewrite (bool_decide_eq_false_2 (User.role u ≠ "doctor")) by tauto.
  rewrite (bool_decide_eq_false_2
             (Appointment.doctor_id a ≠ Integer (User.id u))) by tauto.
  unfold file_truthy. rewrite bool_decide_eq_true_2 by done. simpl.
  by rewrite Hsave, Hid.
Qed.

(** X19: upload and fetch.  After the doctor of appointment [id] has
    uploaded a file whose name [file.save] can write (no slash, and
    accepted by the operating system), [uploaded_file] returns the
    bytes of that file under the name "<id>_<file name>" to any caller,
    logged in or not, and writes nothing. *)
Theorem upload_then_fetch os_accepts st req u id a f req' :
  current_user st req = Some u →
  query_get Appointment.id id (appointments (db st)) = Some a →
  User.role u = "doctor" →
  Appointment.doctor_id a = Integer (User.id u) →
  method req = POST →
  files req !! "file" = Some f →
  filename f ≠ "" →
  file_savable os_accepts (pretty id +:+ "_" +:+ filename f) = true →
  let st1 := state (upload_prescription os_accepts id st req) in
  uploaded_file (pretty id +:+ "_" +:+ filename f) st1 req'
  = mkOutcome (send_file (stream f)) [] st1 (session req').
Proof.
  intros Hu Ha Hrole Hown Hm Hf Hname Hsave. simpl.
  rewrite (upload_prescription_stores os_accepts st req u id a f) by done.
  unfold uploaded_file. simpl. by rewrite lookup_insert_eq.
Qed.

(** X20: no collision handling.  When the doctor uploads a second file
    with the same name for the same appointment (a name [file.save] can
    write), the stored file is replaced by the second one, while the
    Prescription table gets a second row with the same file name: both
    rows now lead to the bytes of the second upload. *)
Theorem upload_twice_overwrites os_accepts st req1 req2 u id a f1 f2 :
  current_user st req1 = Some u →
  session req2 = session req1 →
  query_get Appointment.id id (appointments (db st)) = Some a →
  User.role u = "doctor" →
  Appointment.doctor_id a = Integer (User.id u) →
  method req1 = POST → method req2 = POST →
  files req1 !! "file" = Some f1 →
  files req2 !! "file" = Some f2 →
  filename f1 ≠ "" →
  filename f2 = filename f1 →
  file_savable os_accepts (pretty id +:+ "_" +:+ filename f1) = true →
  let name := pretty id +:+ "_" +:+ filename f1 in
  let st1 := state (upload_prescription os_accepts id st req1) in
  let st2 := state (upload_prescription os_accepts id st1 req2) in
  uploads st1 !! upload_path name = Some (stream f1)
  ∧ uploads st2 !! upload_path name = Some (stream f2)
  ∧ dom (uploads st2) = dom (uploads st1)
  ∧ ∃ p1 p2,
      prescriptions (db st2) = prescriptions (db st) ++ [p1; p2]
      ∧ Prescription.file_url p1 = name ∧ Prescription.file_url p2 = name
      ∧ Prescription.appointment_id p1 = id
      ∧ Prescription.appointment_id p2 = id
      ∧ Prescription.id p1 ≠ Prescription.id p2.
Proof.
  intros Hu Hs Ha Hrole Hown Hm1 Hm2 Hf1 Hf2 Hname Hsame Hsave. simpl.
  rewrite (upload_prescription_stores os_accepts st req1 u id a f1) by done.
  assert (filename f2 ≠ "") as Hname2 by congruence.
  rewrite (upload_prescription_stores os_accepts _ req2 u id a f2); try done.
  - simpl. rewrite Hsame. rewrite !lookup_insert_eq.
    split_and!; [done|done| |].
    + rewrite insert_insert_eq. by rewrite !dom_insert_L.
    + do 2 eexists. rewrite <- app_assoc. split_and!; try reflexivity.
      simpl.
      pose proof (next_id_not_in Prescription.id
                    (prescriptions (db st) ++
                     [Prescription.mk (next_id Prescription.id (prescriptions (db st)))
                                      id (pretty id +:+ "_" +:+ filename f1)]))
        as Hfresh.
      intros Heq. apply Hfresh. rewrite <- Heq, map_app. simpl.
      apply elem_of_app. right. apply list_elem_of_here.
  - unfold current_user in *. by rewrite Hs.
  - by rewrite Hsame.
Qed.

(** ** Concrete runs of the further properties *)

Lemma sample_keys_unique : keys_unique (sample_db "pending").
Proof.
  unfold keys_unique. split_and!; apply (bool_decide_unpack _); by vm_compute.
Qed.

Lemma sample_usernames_unique : usernames_unique (sample_db "pending").
Proof. unfold usernames_unique. apply (bool_decide_unpack _). by vm_compute. Qed.

Lemma schema_constraints_kept_witness :
  let book := post_as (Some 2) (mkForm None None (Some "3") (Some "noon")) ∅ in
  let reg := post_as None (mkForm (Some "dave") (Some "s3cret") None None) ∅ in
  let st' := run toy_generate toy_check toy_affinity toy_os (sample_state "pending")
                 [(BookAppointment, book); (Register, reg)] in
  keys_unique (db st') ∧ usernames_unique (db st').
Proof.
  apply (schema_constraints_kept toy_generate toy_check toy_affinity toy_os
           (sample_state "pending")).
  - apply sample_keys_unique.
  - apply sample_usernames_unique.
Defined.

Lemma references_stay_resolved_witness :
  let book := post_as (Some 2) (mkForm None None (Some "9") (Some "noon")) ∅ in
  references_resolve
    (db (run toy_generate toy_check toy_affinity toy_os (sample_state "pending")
             [(BookAppointment, book)])).
Proof.
  apply (references_stay_resolved toy_generate toy_check toy_affinity toy_os
           (sample_state "pending")).
  split.
  - apply Forall_singleton. by eexists.
  - apply Forall_nil_2.
Defined.

Lemma files_and_rows_agree_witness :
  let up := post_as (Some 3) no_form {["file" := report_pdf]} in
  files_match_rows
    (run toy_generate toy_check toy_affinity toy_os (sample_state "accepted")
         [(UploadPrescription 1, up)]).
Proof.
  apply (files_and_rows_agree toy_generate toy_check toy_affinity toy_os
           (sample_state "accepted")).
  split.
  - apply Forall_nil_2.
  - intros path [c Hc]. unfold sample_state in Hc. simpl in Hc.
    by rewrite lookup_empty in Hc.
Defined.

Lemma get_writes_only_status_witness :
  state (handle toy_generate toy_check toy_affinity toy_os (sample_state "pending") Register
                (get_as None))
  = sample_state "pending"
  ∨ ∃ id action s,
      Register = UpdateAppointment id action
      ∧ state (handle toy_generate toy_check toy_affinity toy_os (sample_state "pending") Register
                      (get_as None))
        = mkState (set_appointment_status id s (sample_db "pending")) ∅.
Proof.
  apply (get_writes_only_status toy_generate toy_check toy_affinity toy_os
           (sample_state "pending") Register (get_as None) eq_refl).
Defined.


Lemma prescription_only_by_doctor_witness :
  ∃ u, current_user (sample_state "accepted")
         (post_as (Some 3) no_form {["file" := report_pdf]}) = Some u
       ∧ User.role u = "doctor".
Proof.
  destruct (prescription_only_by_doctor toy_generate toy_check toy_affinity toy_os
           (sample_state "accepted") (UploadPrescription 1)
              (post_as (Some 3) no_form {["file" := report_pdf]}))
    as (id & u & a & f & p & _ & _ & Hu & Hrole & _).
  - left. vm_compute. discriminate.
  - by exists u.
Defined.

Lemma wrong_role_denied_witness :
  view toy_generate toy_check toy_affinity toy_os DoctorDashboard (sample_state "pending")
       (get_as (Some 2))
  = mkOutcome (redirect "index") [("Access denied", "danger")]
              (sample_state "pending") (Some 2).
Proof.
  apply (wrong_role_denied toy_generate toy_check toy_affinity toy_os
           (sample_state "pending")
           DoctorDashboard (get_as (Some 2)) alice "doctor" eq_refl eq_refl).
  vm_compute. discriminate.
Defined.

Lemma login_rejects_witness :
  let req := post_as None (mkForm (Some "alice") (Some "rabbit") None None) ∅ in
  login toy_check (sample_state "pending") req
  = mkOutcome (render_template "login.html" [])
              [("Invalid credentials", "danger")] (sample_state "pending") None.
Proof.
  apply (login_rejects toy_check (sample_state "pending")
           (post_as None (mkForm (Some "alice") (Some "rabbit") None None) ∅)
           "alice" "rabbit" eq_refl eq_refl eq_refl).
  intros u Hin Hname. simpl in Hin.
  repeat (apply elem_of_cons in Hin as [->|Hin]);
    try discriminate Hname; [reflexivity|by apply not_elem_of_nil in Hin].
Defined.

Lemma login_by_role_witness :
  let req := post_as None (mkForm (Some "bob") (Some "builder") None None) ∅ in
  session' (login toy_check (sample_state "pending") req) = Some 3
  ∧ response (login toy_check (sample_state "pending") req)
    = redirect "doctor_dashboard".
Proof.
  destruct (login_by_role toy_check (sample_state "pending")
              (post_as None (mkForm (Some "bob") (Some "builder") None None) ∅)
              bob "builder" eq_refl eq_refl eq_refl sample_usernames_unique)
    as (Hs & _ & _ & Hr).
  - simpl. do 2 apply list_elem_of_further. apply list_elem_of_here.
  - reflexivity.
  - split; [exact Hs|exact Hr].
Defined.

Lemma admin_login_admin_only_witness :
  let req := post_as None (mkForm (Some "bob") (Some "builder") None None) ∅ in
  admin_login toy_check (sample_state "pending") req
  = mkOutcome (render_template "admin_login.html" [])
              [("Invalid admin credentials", "danger")]
              (sample_state "pending") None.
Proof.
  destruct (admin_login_admin_only toy_check (sample_state "pending")
              (post_as None (mkForm (Some "bob") (Some "builder") None None) ∅)
              bob "builder" eq_refl eq_refl eq_refl sample_usernames_unique)
    as [H _].
  - simpl. do 2 apply list_elem_of_further. apply list_elem_of_here.
  - apply H. vm_compute. discriminate.
Defined.

Lemma register_failures_witness :
  let req := post_as None (mkForm (Some "alice") (Some "again") None None) ∅ in
  register toy_generate (sample_state "pending") req
  = mkOutcome (abort 500) [] (sample_state "pending") None.
Proof.
  destruct (register_failures toy_generate (sample_state "pending")
              (post_as None (mkForm (Some "alice") (Some "again") None None) ∅)
              eq_refl) as [_ H].
  apply (H "alice" "again" alice eq_refl eq_refl); [|reflexivity].
  simpl. apply list_elem_of_further, list_elem_of_here.
Defined.

Lemma seed_admin_fails_iff_witness :
  seed_admin toy_generate "s"
    (mkDB [User.mk 1 "admin" "x" "patient"] [] []) = None.
Proof.
  apply (seed_admin_fails_iff toy_generate "s"
           (mkDB [User.mk 1 "admin" "x" "patient"] [] [])).
  split.
  - apply Forall_singleton. simpl. discriminate.
  - apply Exists_cons_hd. reflexivity.
Defined.

Lemma add_doctor_then_login_witness :
  let add := post_as (Some 1) (mkForm (Some "erin") (Some "scalpel") None None) ∅ in
  let lgn := post_as None (mkForm (Some "erin") (Some "scalpel") None None) ∅ in
  ∃ d,
    users (db (state (add_doctor toy_generate (sample_state "pending") add)))
    = [admin1; alice; bob; carol; d]
    ∧ User.role d = "doctor"
    ∧ response
        (login toy_check
           (run toy_generate toy_check toy_affinity toy_os
                (state (add_doctor toy_generate (sample_state "pending") add))
                [(Logout, get_as (Some 1))])
           lgn)
      = redirect "doctor_dashboard".
Proof.
  assert (Forall (λ u, User.username u ≠ "erin")
                 (users (db (sample_state "pending")))) as Hfree
    by (repeat constructor; discriminate).
  destruct (add_doctor_then_login toy_generate toy_check toy_affinity toy_os
              toy_check_generate
              (sample_state "pending")
              (post_as (Some 1) (mkForm (Some "erin") (Some "scalpel") None None) ∅)
              admin1 "erin" "scalpel" eq_refl eq_refl eq_refl eq_refl Hfree)
    as (d & _ & Husers & _ & Hrole & _ & Hlogin).
  exists d. split_and!; [exact Husers|exact Hrole|].
  by destruct (Hlogin
       [(Logout, get_as (Some 1))]
       (post_as None (mkForm (Some "erin") (Some "scalpel") None None) ∅)
       eq_refl eq_refl eq_refl) as [Hresp _].
Defined.

Lemma default_admin_login_witness :
  let lgn := post_as None (mkForm (Some "admin") (Some "admin123") None None) ∅ in
  let reg := post_as None (mkForm (Some "dave") (Some "s3cret") None None) ∅ in
  response
    (admin_login toy_check
       (run toy_generate toy_check toy_affinity toy_os (mkState (mkDB [admin1] [] []) ∅)
            [(Register, reg)])
       lgn)
  = redirect "admin_dashboard".
Proof.
  pose proof (default_admin_login toy_generate toy_check toy_affinity toy_os
              toy_check_generate
              "s0" empty_db (mkDB [admin1] [] []) ∅
                [(Register,
                  post_as None (mkForm (Some "dave") (Some "s3cret") None None) ∅)]
                (post_as None (mkForm (Some "admin") (Some "admin123") None None) ∅)
                (Forall_nil_2 _) eq_refl eq_refl eq_refl eq_refl) as H.
  cbv zeta in H |- *. by rewrite H.
Defined.

Lemma dashboards_list_witness :
  ∃ appts,
    response (doctor_dashboard (sample_state "pending") (get_as (Some 3)))
    = render_template "doctor_dashboard.html"
        [("appointments", CAppointments appts)]
    ∧ visit1 "pending" ∈ appts.
Proof.
  destruct (dashboards_list (sample_state "pending") (get_as (Some 3)) bob
              eq_refl) as (Hdoc & _ & _).
  destruct (Hdoc eq_refl) as (appts & Heq & Hin).
  exists appts. split.
  - by rewrite Heq.
  - apply Hin. split; [apply list_elem_of_here|reflexivity].
Defined.


Lemma book_then_accept_witness :
  let book := post_as (Some 2) (mkForm None None (Some "4") (Some "noon")) ∅ in
  let st1 := state (book_appointment toy_affinity (sample_state "pending") book) in
  query_get Appointment.id 2
    (appointments (db (state (update_appointment 2 "accept" st1 (get_as (Some 4))))))
  = Some (Appointment.mk 2 2 (Integer 4) "noon" "accepted")
  ∧ state (update_appointment 2 "accept" st1 (get_as (Some 3))) = st1.
Proof.
  destruct (book_then_accept toy_affinity (sample_state "pending")
              (post_as (Some 2) (mkForm None None (Some "4") (Some "noon")) ∅)
              alice "4" 4 "noon" (get_as (Some 4)) carol
              eq_refl eq_refl eq_refl eq_refl eq_refl eq_refl eq_refl)
    as (_ & Hown & _).
  destruct (book_then_accept toy_affinity (sample_state "pending")
              (post_as (Some 2) (mkForm None None (Some "4") (Some "noon")) ∅)
              alice "4" 4 "noon" (get_as (Some 3)) bob
              eq_refl eq_refl eq_refl eq_refl eq_refl eq_refl eq_refl)
    as (_ & _ & Hother).
  split.
  - by destruct (Hown eq_refl) as [_ H].
  - apply Hother. vm_compute. discriminate.
Defined.

Lemma upload_then_fetch_witness :
  let up := post_as (Some 3) no_form {["file" := report_pdf]} in
  response
    (uploaded_file "1_report.pdf"
       (state (upload_prescription toy_os 1 (sample_state "accepted") up))
       (get_as None))
  = send_file (stream report_pdf).
Proof.
  assert (files (post_as (Some 3) no_form {["file" := report_pdf]}) !! "file"
          = Some report_pdf) as Hf by apply lookup_singleton_eq.
  pose proof (upload_then_fetch toy_os (sample_state "accepted")
                (post_as (Some 3) no_form {["file" := report_pdf]})
                bob 1 (visit1 "accepted") report_pdf (get_as None)
                eq_refl eq_refl eq_refl eq_refl eq_refl Hf) as H.
  assert (filename report_pdf ≠ "") as Hname by discriminate.
  exact (f_equal response (H Hname eq_refl)).
Defined.

Lemma upload_twice_overwrites_witness :
  let second := mkFile "report.pdf" [Byte.x00] in
  let up1 := post_as (Some 3) no_form {["file" := report_pdf]} in
  let up2 := post_as (Some 3) no_form {["file" := second]} in
  let st1 := state (upload_prescription toy_os 1 (sample_state "accepted") up1) in
  let st2 := state (upload_prescription toy_os 1 st1 up2) in
  uploads st2 !! upload_path "1_report.pdf" = Some [Byte.x00]
  ∧ length (prescriptions (db st2)) = 2%nat.
Proof.
  assert (files (post_as (Some 3) no_form {["file" := report_pdf]}) !! "file"
          = Some report_pdf) as Hf1 by apply lookup_singleton_eq.
  assert (files (post_as (Some 3) no_form
                         {["file" := mkFile "report.pdf" [Byte.x00]]}) !! "file"
          = Some (mkFile "report.pdf" [Byte.x00])) as Hf2
    by apply lookup_singleton_eq.
  assert (filename report_pdf ≠ "") as Hname by discriminate.
  destruct (upload_twice_overwrites toy_os (sample_state "accepted")
              (post_as (Some 3) no_form {["file" := report_pdf]})
              (post_as (Some 3) no_form
                       {["file" := mkFile "report.pdf" [Byte.x00]]})
              bob 1 (visit1 "accepted") report_pdf
              (mkFile "report.pdf" [Byte.x00])
              eq_refl eq_refl eq_refl eq_refl eq_refl eq_refl eq_refl
              Hf1 Hf2 Hname eq_refl eq_refl)
    as (_ & H2 & _ & p1 & p2 & Hp & _).
  split; [exact H2|]. simpl in Hp |- *. by rewrite Hp.
Defined.
